(** * Task manager API (backend/app.py): handlers over a model of the ORM session

    The Flask handlers of [backend/app.py] are embedded as computations in a
    state-and-exception monad.  The state is what the handlers act on through
    Flask-SQLAlchemy: the committed table, the open transaction, the unit of
    work of the session and the clock read by the column defaults.

    What the source leaves to Python, Flask and SQLAlchemy is written out:
    - [except Exception] catches every exception raised in its [try] block,
      the HTTPException of [abort(404)] included;
    - [in], subscripting and [.get] behave as Python defines them on None,
      numbers, strings, lists and dicts;
    - [commit()] flushes the unit of work: INSERT for an added instance,
      UPDATE for a loaded instance with a net change, DELETE for a deleted
      one, and nothing for a loaded instance without net change;
    - a column [default] is applied at INSERT to a column left out of the
      statement, [onupdate] at UPDATE; each is one call of its callable;
    - [request.get_json()] returns the parsed body or raises (a request
      without JSON body, a body that does not parse);
    - [commit()] expires the instance, so the first read of [task.id]
      after it reloads the row with a SELECT;
    - the storage layer can raise on a SELECT, on a flushed statement and
      on COMMIT.
    Logging has no effect on the responses or on the store and is left
    out, but for the read of [task.id] that the log lines of create and
    update make after [commit()]. *)

From Stdlib Require Import ZArith String Ascii List Lia.
From stdpp Require Import base option list gmap strings.

Open Scope string_scope.
Open Scope Z_scope.

(** ** Python values returned by [request.get_json()] *)

(** A float is kept as mantissa and exponent ([m * 2^e]); the handlers only
    observe whether it is zero. A dict is kept as the list of its items,
    looked up by key. *)
#[local] Unset Elimination Schemes.
Inductive pyval :=
| PNone
| PBool (b : bool)
| PInt (z : Z)
| PFloat (m e : Z)
| PStr (s : string)
| PList (l : list pyval)
| PDict (d : list (string * pyval)).
#[local] Set Elimination Schemes.

(** Exceptions the handlers can meet. [NotFound] is werkzeug's HTTPException
    raised by [abort(404)], [BadRequest] the one raised by
    [request.get_json()]; like every HTTPException they derive from
    [Exception]. [DBAPIError] stands for the errors of the storage layer and
    carries their description. *)
Inductive exn :=
| NotFound
| BadRequest
| TypeError
| AttributeError
| KeyError (k : string)
| IntegrityError
| DBAPIError (msg : string)
| InvalidRequestError.

Definition is_http_exception (e : exn) : option Z :=
  match e with
  | NotFound => Some 404
  | BadRequest => Some 400
  | _ => None
  end.

(** [bool(data)], as used by [not data]. *)
Definition truthy (v : pyval) : bool :=
  match v with
  | PNone => false
  | PBool b => b
  | PInt z => negb (z =? 0)
  | PFloat m _ => negb (m =? 0)
  | PStr s => negb (String.eqb s "")
  | PList l => match l with [] => false | _ => true end
  | PDict d => match d with [] => false | _ => true end
  end.

(** [sub in s] on two strings: substring test. *)
Fixpoint str_contains (sub s : string) : bool :=
  String.prefix sub s ||
  match s with
  | EmptyString => false
  | String _ s' => str_contains sub s'
  end.

Definition is_str (k : string) (v : pyval) : bool :=
  match v with
  | PStr s => String.eqb s k
  | _ => false
  end.

Fixpoint dict_get (k : string) (d : list (string * pyval)) : option pyval :=
  match d with
  | [] => None
  | (k', v) :: d' => if String.eqb k k' then Some v else dict_get k d'
  end.

(** [k in data] for a string [k]: key membership on a dict, element
    membership on a list, substring on a str, TypeError on the rest. *)
Definition py_in (k : string) (data : pyval) : exn + bool :=
  match data with
  | PDict d => inr (match dict_get k d with Some _ => true | None => false end)
  | PList l => inr (existsb (is_str k) l)
  | PStr s => inr (str_contains k s)
  | PNone | PBool _ | PInt _ | PFloat _ _ => inl TypeError
  end.

(** [data[k]] for a string [k]. *)
Definition py_getitem (data : pyval) (k : string) : exn + pyval :=
  match data with
  | PDict d => match dict_get k d with
               | Some v => inr v
               | None => inl (KeyError k)
               end
  | _ => inl TypeError
  end.

(** [data.get(k, default)]. *)
Definition py_get (data : pyval) (k : string) (dflt : pyval) : exn + pyval :=
  match data with
  | PDict d => inr (match dict_get k d with Some v => v | None => dflt end)
  | _ => inl AttributeError
  end.

(** ** The [tasks] table *)

Inductive column := Title | Description | Status.

(** [db.String(200)], [db.Text], [db.String(50)]. *)
Definition max_length (c : column) : option nat :=
  match c with
  | Title => Some 200%nat
  | Description => None
  | Status => Some 50%nat
  end.

(** A row of [tasks]. [title] is [nullable=False]; the timestamps are the
    [datetime] values in microseconds. *)
Record Task := mkTask {
  id : Z;
  title : string;
  description : option string;
  status : option string;
  created_at : Z;
  updated_at : Z
}.

(** The dict built by [Task.to_dict]; [isoformat()] renders a timestamp
    injectively, so the timestamp itself stands for the rendered string. *)
Record task_dict := mkDict {
  d_id : Z;
  d_title : string;
  d_description : option string;
  d_status : option string;
  d_created_at : Z;
  d_updated_at : Z
}.

Definition to_dict (self : Task) : task_dict :=
  {| d_id := id self;
     d_title := title self;
     d_description := description self;
     d_status := status self;
     d_created_at := created_at self;
     d_updated_at := updated_at self |}.

(** Column attributes of a mapped instance, as Python values. *)
Record attrs := mkAttrs {
  a_title : pyval;
  a_description : pyval;
  a_status : pyval
}.

Definition of_text (o : option string) : pyval :=
  match o with
  | Some s => PStr s
  | None => PNone
  end.

Definition attrs_of (row : Task) : attrs :=
  {| a_title := PStr (title row);
     a_description := of_text (description row);
     a_status := of_text (status row) |}.

Definition set_attr (c : column) (v : pyval) (o : attrs) : attrs :=
  match c with
  | Title => {| a_title := v; a_description := a_description o; a_status := a_status o |}
  | Description => {| a_title := a_title o; a_description := v; a_status := a_status o |}
  | Status => {| a_title := a_title o; a_description := a_description o; a_status := v |}
  end.

(** State of the one instance a handler works with in its session. *)
Inductive instance :=
| Pending (o : attrs)
| Persistent (row : Task) (o : attrs)
| Deleted (row : Task).

(** What persists between requests: the committed rows, the id sequence
    (not transactional) and the number of clock readings taken so far. *)
Record world := mkWorld {
  rows : gmap Z Task;
  next_id : Z;
  ticks : nat
}.

Definition initial : world := {| rows := ∅; next_id := 1; ticks := 0%nat |}.

(** A request in progress: the world, the rows as seen by the open
    transaction and the session's instance. *)
Record ctx := mkCtx {
  db : world;
  txn : gmap Z Task;
  session : option instance
}.

Definition begin (w : world) : ctx :=
  {| db := w; txn := rows w; session := None |}.

(** Where the storage layer raises during this request, with the
    description of the error: on every SELECT, on the INSERT/UPDATE/DELETE
    of a flush, on COMMIT, on the SELECT that reloads an instance after
    COMMIT. *)
Record faults := mkFaults {
  on_query : option string;
  on_flush : option string;
  on_commit : option string;
  on_refresh : option string
}.

Definition no_faults : faults :=
  {| on_query := None; on_flush := None; on_commit := None; on_refresh := None |}.

(** The reload after COMMIT is a SELECT: it fails when every SELECT does,
    and when it alone does. *)
Definition reload_fault (fl : faults) : option string :=
  match on_query fl with
  | Some m => Some m
  | None => on_refresh fl
  end.

(** ** The monad of handler bodies *)

Definition M (A : Type) : Type := ctx → (exn + A) * ctx.

Definition ret {A} (a : A) : M A := λ c, (inr a, c).

Definition raise {A} (e : exn) : M A := λ c, (inl e, c).

Definition bind {A B} (m : M A) (k : A → M B) : M B :=
  λ c, match m c with
       | (inr a, c') => k a c'
       | (inl e, c') => (inl e, c')
       end.

Definition lift {A} (r : exn + A) : M A :=
  match r with
  | inr a => ret a
  | inl e => raise e
  end.

(** [try: body except Exception as e: handler e] *)
Definition try_except {A} (body : M A) (handler : exn → M A) : M A :=
  λ c, match body c with
       | (inr a, c') => (inr a, c')
       | (inl e, c') => handler e c'
       end.

Notation "'let*' x ':=' m 'in' k" := (bind m (λ x, k))
  (at level 10, x name, m at level 100, k at level 200).

Definition get_ctx : M ctx := λ c, (inr c, c).

Definition set_session (s : option instance) : M unit :=
  λ c, (inr tt, {| db := db c; txn := txn c; session := s |}).

Definition set_txn (t : gmap Z Task) : M unit :=
  λ c, (inr tt, {| db := db c; txn := t; session := session c |}).

Definition set_db (w : world) : M unit :=
  λ c, (inr tt, {| db := w; txn := txn c; session := session c |}).

Definition fault (f : option string) : M unit :=
  match f with
  | Some msg => raise (DBAPIError msg)
  | None => ret tt
  end.

(** ** Responses *)

Inductive body :=
| JTask (t : task_dict)
| JTasks (l : list task_dict)
| JError (e : exn)
| JTitleRequired
| JDeleted
| JHealthy (timestamp : Z)
| JUnhealthy (e : exn)
| JReady
| JIndex
| JAborted (e : exn).

(** [jsonify(...), code] *)
Definition response : Type := body * Z.

Definition status_code (r : response) : Z := r.2.

(** What a handler gets from outside: the outcome of
    [request.get_json()], which returns the parsed body ([PNone] for the
    body [null]) or raises (a request without JSON body, a body that does
    not parse), and the behaviour of the storage layer while the request
    is served. *)
Record request := mkRequest {
  get_json : exn + pyval;
  storage : faults
}.

(** The three handlers that write. *)
Inductive mutation :=
| Create (rq : request)
| Update (task_id : Z) (rq : request)
| Delete (task_id : Z) (rq : request).

Definition request_of (v : mutation) : request :=
  match v with
  | Create rq | Update _ rq | Delete _ rq => rq
  end.

Section Handlers.

(** [datetime.utcnow]: the i-th reading of the clock, in microseconds. *)
Variable clock : nat → Z.

(** What the configured database makes of a non-null value bound to a text
    column when the value is not a string that fits the declared length:
    the stored text, or the error raised by the statement. *)
Variable store_cast : column → pyval → exn + string.

Definition utcnow : M Z :=
  λ c, let w := db c in
       (inr (clock (ticks w)),
        {| db := {| rows := rows w; next_id := next_id w; ticks := S (ticks w) |};
           txn := txn c; session := session c |}).

(** A string goes into a text column as it is when it has no NUL character
    and fits the declared length. *)
Definition plain (c : column) (s : string) : bool :=
  negb (existsb (Ascii.eqb zero) (list_ascii_of_string s)) &&
  match max_length c with
  | Some n => (String.length s <=? n)%nat
  | None => true
  end.

(** The value a bound parameter leaves in a text column; [None] is NULL. *)
Definition persist (c : column) (v : pyval) : exn + option string :=
  match v with
  | PNone => inr None
  | PStr s => if plain c s then inr (Some s)
              else match store_cast c v with inr s' => inr (Some s') | inl e => inl e end
  | _ => match store_cast c v with inr s' => inr (Some s') | inl e => inl e end
  end.

(** *** Session operations *)

(** [Task.query.get(ident)] *)
Definition query_get (fl : faults) (ident : Z) : M (option Task) :=
  let* _ := fault (on_query fl) in
  let* c := get_ctx in
  ret (txn c !! ident).

(** [Task.query.get_or_404(ident)]: the instance enters the session. *)
Definition get_or_404 (fl : faults) (ident : Z) : M unit :=
  let* rv := query_get fl ident in
  match rv with
  | None => raise NotFound
  | Some row => set_session (Some (Persistent row (attrs_of row)))
  end.

(** [Task.query.all()] *)
Definition query_all (fl : faults) : M (list Task) :=
  let* _ := fault (on_query fl) in
  let* c := get_ctx in
  ret ((map_to_list (txn c)).*2).

(** [db.session.add(Task(title=.., description=.., status=..))] *)
Definition session_add (o : attrs) : M unit := set_session (Some (Pending o)).

(** [task.<column> = v] on the session's instance. *)
Definition setattr (col : column) (v : pyval) : M unit :=
  let* c := get_ctx in
  match session c with
  | Some (Persistent row o) => set_session (Some (Persistent row (set_attr col v o)))
  | Some (Pending o) => set_session (Some (Pending (set_attr col v o)))
  | _ => raise InvalidRequestError
  end.

(** [db.session.delete(task)] *)
Definition session_delete : M unit :=
  let* c := get_ctx in
  match session c with
  | Some (Persistent row _) => set_session (Some (Deleted row))
  | _ => raise InvalidRequestError
  end.

(** [task.id] right after [commit()]: the instance is expired, the read
    reloads it with a SELECT. *)
Definition instance_id (fl : faults) : M Z :=
  let* _ := fault (reload_fault fl) in
  let* c := get_ctx in
  match session c with
  | Some (Persistent row _) => ret (id row)
  | _ => raise InvalidRequestError
  end.

(** [task.to_dict()] on the session's loaded instance. *)
Definition instance_to_dict : M task_dict :=
  let* c := get_ctx in
  match session c with
  | Some (Persistent row _) => ret (to_dict row)
  | _ => raise InvalidRequestError
  end.

(** Net change of an attribute against the loaded value: Python [==]
    between the assigned value and a str or None. *)
Definition same_text (v : pyval) (old : option string) : bool :=
  match v, old with
  | PNone, None => true
  | PStr s, Some s' => String.eqb s s'
  | _, _ => false
  end.

(** Some column attribute of the loaded instance has a net change. *)
Definition modified (row : Task) (o : attrs) : bool :=
  negb (same_text (a_title o) (Some (title row))) ||
  negb (same_text (a_description o) (description row)) ||
  negb (same_text (a_status o) (status row)).

(** NOT NULL on [title]. *)
Definition not_null (v : option string) : M string :=
  match v with
  | Some s => ret s
  | None => raise IntegrityError
  end.

(** [default=] of a text column: only [status] has one. *)
Definition column_default (c : column) : option string :=
  match c with
  | Status => Some "pending"
  | _ => None
  end.

(** The value of a column after INSERT: a None attribute is left out of
    the statement, so the column default applies (NULL where there is
    none). *)
Definition insert_value (c : column) (v : pyval) : exn + option string :=
  match v with
  | PNone => inr (column_default c)
  | _ => persist c v
  end.

(** INSERT of a pending instance: [created_at] and [updated_at] each call
    their default, in column order; the id comes from the sequence. *)
Definition flush_insert (fl : faults) (o : attrs) : M Task :=
  let* c_at := utcnow in
  let* u_at := utcnow in
  let* t := lift (insert_value Title (a_title o)) in
  let* d := lift (insert_value Description (a_description o)) in
  let* s := lift (insert_value Status (a_status o)) in
  let* _ := fault (on_flush fl) in
  let* c := get_ctx in
  let w := db c in
  let* _ := set_db {| rows := rows w; next_id := next_id w + 1; ticks := ticks w |} in
  let* t := not_null t in
  let row := {| id := next_id w; title := t; description := d; status := s;
                created_at := c_at; updated_at := u_at |} in
  let* _ := set_txn (<[next_id w := row]> (txn c)) in
  ret row.

(** UPDATE of a modified instance: the SET clause has the columns with a
    net change, and [updated_at] through its [onupdate]. *)
Definition flush_update (fl : faults) (row : Task) (o : attrs) : M Task :=
  let* u_at := utcnow in
  let* t := (if same_text (a_title o) (Some (title row)) then ret (Some (title row))
             else lift (persist Title (a_title o))) in
  let* d := (if same_text (a_description o) (description row) then ret (description row)
             else lift (persist Description (a_description o))) in
  let* s := (if same_text (a_status o) (status row) then ret (status row)
             else lift (persist Status (a_status o))) in
  let* _ := fault (on_flush fl) in
  let* t := not_null t in
  let row' := {| id := id row; title := t; description := d; status := s;
                 created_at := created_at row; updated_at := u_at |} in
  let* c := get_ctx in
  let* _ := set_txn (<[id row := row']> (txn c)) in
  ret row'.

(** DELETE of an instance marked deleted. *)
Definition flush_delete (fl : faults) (row : Task) : M unit :=
  let* _ := fault (on_flush fl) in
  let* c := get_ctx in
  set_txn (delete (id row) (txn c)).

(** COMMIT: the rows of the transaction become the committed rows. *)
Definition transaction_commit (fl : faults) : M unit :=
  let* _ := fault (on_commit fl) in
  let* c := get_ctx in
  let w := db c in
  set_db {| rows := txn c; next_id := next_id w; ticks := ticks w |}.

(** [db.session.commit()]: flush the unit of work, then COMMIT. A loaded
    instance without net change is not flushed: no UPDATE, hence no
    [onupdate]. After the commit the instance shows the stored row. *)
Definition commit (fl : faults) : M unit :=
  let* c := get_ctx in
  let* _ := match session c with
            | None => ret tt
            | Some (Pending o) =>
                let* row := flush_insert fl o in
                set_session (Some (Persistent row (attrs_of row)))
            | Some (Persistent row o) =>
                if modified row o then
                  let* row' := flush_update fl row o in
                  set_session (Some (Persistent row' (attrs_of row')))
                else ret tt
            | Some (Deleted row) =>
                let* _ := flush_delete fl row in
                set_session None
            end in
  transaction_commit fl.

(** [db.session.rollback()]: the transaction is abandoned and the session
    holds no change. *)
Definition rollback : M unit :=
  λ c, (inr tt, {| db := db c; txn := rows (db c); session := None |}).

(** *** Routes *)

(** [GET /health] *)
Definition health_check (rq : request) : M response :=
  try_except
    (let* _ := fault (on_query (storage rq)) in
     let* now := utcnow in
     ret (JHealthy now, 200))
    (λ e, ret (JUnhealthy e, 503)).

(** [GET /ready] *)
Definition readiness_check : M response := ret (JReady, 200).

(** [GET /api/tasks] *)
Definition get_tasks (rq : request) : M response :=
  try_except
    (let* tasks := query_all (storage rq) in
     ret (JTasks (to_dict <$> tasks), 200))
    (λ e, ret (JError e, 500)).

(** [GET /api/tasks/<int:task_id>] *)
Definition get_task (task_id : Z) (rq : request) : M response :=
  let* _ := get_or_404 (storage rq) task_id in
  let* r := instance_to_dict in
  ret (JTask r, 200).

(** The [except Exception as e] block of create, update and delete:
    [db.session.rollback()] and [jsonify({'error': str(e)}), 500]. *)
Definition on_exception (e : exn) : M response :=
  let* _ := rollback in
  ret (JError e, 500).

(** [POST /api/tasks]: the [try] block, then the handler. [task.id] is
    read for the log line. *)
Definition create_task_try (rq : request) : M response :=
  let* data := lift (get_json rq) in
  let* rejected := (if negb (truthy data) then ret true
                    else let* b := lift (py_in "title" data) in ret (negb b)) in
  if rejected then ret (JTitleRequired, 400)
  else
    let* t := lift (py_getitem data "title") in
    let* d := lift (py_get data "description" (PStr "")) in
    let* s := lift (py_get data "status" (PStr "pending")) in
    let* _ := session_add {| a_title := t; a_description := d; a_status := s |} in
    let* _ := commit (storage rq) in
    let* _ := instance_id (storage rq) in
    let* r := instance_to_dict in
    ret (JTask r, 201).

Definition create_task (rq : request) : M response :=
  try_except (create_task_try rq) on_exception.

(** [if key in data: task.<col> = data[key]] *)
Definition assign_if_present (data : pyval) (key : string) (col : column) : M unit :=
  let* present := lift (py_in key data) in
  if present
  then let* v := lift (py_getitem data key) in setattr col v
  else ret tt.

(** [PUT /api/tasks/<int:task_id>] *)
Definition update_task_try (task_id : Z) (rq : request) : M response :=
  let* _ := get_or_404 (storage rq) task_id in
  let* data := lift (get_json rq) in
  let* _ := assign_if_present data "title" Title in
  let* _ := assign_if_present data "description" Description in
  let* _ := assign_if_present data "status" Status in
  let* _ := commit (storage rq) in
  let* _ := instance_id (storage rq) in
  let* r := instance_to_dict in
  ret (JTask r, 200).

Definition update_task (task_id : Z) (rq : request) : M response :=
  try_except (update_task_try task_id rq) on_exception.

(** [DELETE /api/tasks/<int:task_id>] *)
Definition delete_task_try (task_id : Z) (rq : request) : M response :=
  let* _ := get_or_404 (storage rq) task_id in
  let* _ := session_delete in
  let* _ := commit (storage rq) in
  ret (JDeleted, 200).

Definition delete_task (task_id : Z) (rq : request) : M response :=
  try_except (delete_task_try task_id rq) on_exception.

(** [GET /] *)
Definition index : M response := ret (JIndex, 200).

(** *** The application around a view function *)

(** An exception leaving a view: an HTTPException becomes the response with
    its code, anything else the 500 page. *)
Definition handle_exception (e : exn) : response :=
  match is_http_exception e with
  | Some code => (JAborted e, code)
  | None => (JAborted e, 500)
  end.

(** One request: a fresh session on the committed rows, the view, and the
    teardown that drops the session with whatever it left open. *)
Definition serve (view : M response) (w : world) : response * world :=
  match view (begin w) with
  | (inr r, c) => (r, db c)
  | (inl e, c) => (handle_exception e, db c)
  end.

Inductive route :=
| GET_health
| GET_ready
| GET_tasks
| GET_task (task_id : Z)
| POST_tasks
| PUT_task (task_id : Z)
| DELETE_task (task_id : Z)
| GET_index.

Definition view_of (r : route) (rq : request) : M response :=
  match r with
  | GET_health => health_check rq
  | GET_ready => readiness_check
  | GET_tasks => get_tasks rq
  | GET_task k => get_task k rq
  | POST_tasks => create_task rq
  | PUT_task k => update_task k rq
  | DELETE_task k => delete_task k rq
  | GET_index => index
  end.

Definition step (w : world) (call : route * request) : world :=
  (serve (view_of call.1 call.2) w).2.

(** The world after a sequence of requests. *)
Definition run (calls : list (route * request)) (w : world) : world :=
  foldl step w calls.

Definition reachable (w : world) : Prop :=
  ∃ calls, w = run calls initial.

(** The clock never goes back. *)
Definition monotone : Prop :=
  ∀ i j : nat, (i ≤ j)%nat → clock i ≤ clock j.

End Handlers.

(** ** Vocabulary of the properties *)

Definition tick (w : world) : world :=
  {| rows := rows w; next_id := next_id w; ticks := S (ticks w) |}.

(** The committed rows are kept; the sequence and the clock may advance. *)
Definition quiet (w w' : world) : Prop :=
  rows w' = rows w ∧ next_id w ≤ next_id w' ∧ (ticks w ≤ ticks w')%nat.

(** One [if key in data: task.<col> = data[key]] on the attributes. *)
Definition assign (data : pyval) (key : string) (col : column) (o : attrs) : exn + attrs :=
  match py_in key data with
  | inl e => inl e
  | inr false => inr o
  | inr true =>
      match py_getitem data key with
      | inl e => inl e
      | inr v => inr (set_attr col v o)
      end
  end.

Definition assignments (data : pyval) (o : attrs) : exn + attrs :=
  match assign data "title" Title o with
  | inl e => inl e
  | inr o1 =>
      match assign data "description" Description o1 with
      | inl e => inl e
      | inr o2 => assign data "status" Status o2
      end
  end.

(** A summary of the body applied to the outcome of [get_json()]: the
    exception when it raised. *)
Definition on_json {A} (f : pyval → exn + A) (g : exn + pyval) : exn + A :=
  match g with
  | inl e => inl e
  | inr data => f data
  end.

(** The attributes after [data = request.get_json()] and the three
    assignments. *)
Definition assigned (g : exn + pyval) (o : attrs) : exn + attrs :=
  on_json (λ data, assignments data o) g.

(** [not data or 'title' not in data] *)
Definition create_rejects (data : pyval) : exn + bool :=
  if negb (truthy data) then inr true
  else match py_in "title" data with
       | inl e => inl e
       | inr b => inr (negb b)
       end.

(** The keyword arguments of [Task(...)]. *)
Definition create_attrs (data : pyval) : exn + attrs :=
  match py_getitem data "title" with
  | inl e => inl e
  | inr t =>
      match py_get data "description" (PStr "") with
      | inl e => inl e
      | inr d =>
          match py_get data "status" (PStr "pending") with
          | inl e => inl e
          | inr s => inr {| a_title := t; a_description := d; a_status := s |}
          end
      end
  end.

(** [key in data] holds. *)
Definition has_key (key : string) (data : pyval) : bool :=
  match py_in key data with
  | inr true => true
  | _ => false
  end.

Definition names_a_column (data : pyval) : bool :=
  has_key "title" data || has_key "description" data || has_key "status" data.

(** A str or a list: [in] is defined on it, subscripting by a str is not. *)
Definition is_sequence (data : pyval) : bool :=
  match data with
  | PStr _ | PList _ => true
  | _ => false
  end.

(** A timestamp to the second. *)
Definition second (t : Z) : Z := t / 1000000.

(** A value that a text column takes as it is: None, or a string without
    NUL that fits the declared length. *)
Definition plain_value (c : column) (v : pyval) : bool :=
  match v with
  | PNone => true
  | PStr s => plain c s
  | _ => false
  end.

(** An optional key of a body whose value, when there is one, is taken as
    it is. *)
Definition plain_entry (c : column) (entry : option pyval) : bool :=
  match entry with
  | None => true
  | Some v => plain_value c v
  end.

Definition text_of (v : pyval) : option string :=
  match v with
  | PStr s => Some s
  | _ => None
  end.

(** What POST leaves in a column for [data.get(key, dflt)]: [dflt] for a
    missing key, the column default for None, else the text. *)
Definition created_value (c : column) (dflt : string) (entry : option pyval)
  : option string :=
  match entry with
  | None => Some dflt
  | Some PNone => column_default c
  | Some v => text_of v
  end.

(** What PUT leaves in a column: the old value for a missing key, else the
    text of the value (null for None). *)
Definition updated_value (old : option string) (entry : option pyval)
  : option string :=
  match entry with
  | None => old
  | Some v => text_of v
  end.

(** The attribute of a column after the assignments of an object body. *)
Definition attr_of_entry (old : option string) (entry : option pyval) : pyval :=
  match entry with
  | Some v => v
  | None => of_text old
  end.

(** The routes registered with [methods=['GET']]. *)
Definition is_read (r : route) : bool :=
  match r with
  | GET_health | GET_ready | GET_tasks | GET_task _ | GET_index => true
  | POST_tasks | PUT_task _ | DELETE_task _ => false
  end.

Section Outcomes.

Variable clock : nat → Z.
Variable store_cast : column → pyval → exn + string.

Local Abbreviation persist := (persist store_cast).

(** A column after an UPDATE: kept when the attribute shows no net change,
    else what the bound value leaves in it. *)
Definition field_set (c : column) (v : pyval) (old new : option string) : Prop :=
  if same_text v old then new = old else persist c v = inr new.

Record updated_row (row : Task) (o : attrs) (now : Z) (row' : Task) : Prop := {
  upd_id : id row' = id row;
  upd_created_at : created_at row' = created_at row;
  upd_updated_at : updated_at row' = now;
  upd_title : field_set Title (a_title o) (Some (title row)) (Some (title row'));
  upd_description : field_set Description (a_description o) (description row) (description row');
  upd_status : field_set Status (a_status o) (status row) (status row')
}.

(** The storage layer raised [e] on the flush statement, when there is
    one, or on COMMIT. *)
Definition storage_fault (fl : faults) (flushes : bool) (e : exn) : Prop :=
  ∃ m, e = DBAPIError m ∧
    ((flushes = true ∧ on_flush fl = Some m) ∨ on_commit fl = Some m).

(** Why the commit of a modified instance raised [e]. *)
Definition update_failure (fl : faults) (row : Task) (o : attrs) (e : exn) : Prop :=
  (same_text (a_title o) (Some (title row)) = false ∧ persist Title (a_title o) = inl e) ∨
  (same_text (a_description o) (description row) = false ∧
   persist Description (a_description o) = inl e) ∨
  (same_text (a_status o) (status row) = false ∧ persist Status (a_status o) = inl e) ∨
  storage_fault fl (modified row o) e ∨
  (e = IntegrityError ∧ same_text (a_title o) (Some (title row)) = false ∧
   persist Title (a_title o) = inr None).

(** Why the commit of a pending instance raised [e]. *)
Definition insert_failure (fl : faults) (o : attrs) (e : exn) : Prop :=
  insert_value store_cast Title (a_title o) = inl e ∨
  insert_value store_cast Description (a_description o) = inl e ∨
  insert_value store_cast Status (a_status o) = inl e ∨
  storage_fault fl true e ∨
  (e = IntegrityError ∧ insert_value store_cast Title (a_title o) = inr None).

Record inserted_row (o : attrs) (w : world) (row : Task) : Prop := {
  ins_id : id row = next_id w;
  ins_created_at : created_at row = clock (ticks w);
  ins_updated_at : updated_at row = clock (S (ticks w));
  ins_title : insert_value store_cast Title (a_title o) = inr (Some (title row));
  ins_description : insert_value store_cast Description (a_description o) = inr (description row);
  ins_status : insert_value store_cast Status (a_status o) = inr (status row)
}.

(** *** PUT: every way [update_task] can end *)

Inductive update_outcome (k : Z) (rq : request) (w : world) : response → world → Prop :=
| upd_query_fault m :
    on_query (storage rq) = Some m →
    update_outcome k rq w (JError (DBAPIError m), 500) w
| upd_not_found :
    on_query (storage rq) = None → rows w !! k = None →
    update_outcome k rq w (JError NotFound, 500) w
| upd_bad_body row e :
    on_query (storage rq) = None → rows w !! k = Some row →
    assigned (get_json rq) (attrs_of row) = inl e →
    update_outcome k rq w (JError e, 500) w
| upd_storage_error row o e w' :
    on_query (storage rq) = None → rows w !! k = Some row →
    assigned (get_json rq) (attrs_of row) = inr o →
    quiet w w' → update_failure (storage rq) row o e →
    update_outcome k rq w (JError e, 500) w'
| upd_unchanged row o :
    on_query (storage rq) = None → rows w !! k = Some row →
    assigned (get_json rq) (attrs_of row) = inr o →
    modified row o = false →
    on_commit (storage rq) = None →
    reload_fault (storage rq) = None →
    update_outcome k rq w (JTask (to_dict row), 200) w
| upd_written row o row' :
    on_query (storage rq) = None → rows w !! k = Some row →
    assigned (get_json rq) (attrs_of row) = inr o →
    modified row o = true →
    on_flush (storage rq) = None → on_commit (storage rq) = None →
    updated_row row o (clock (ticks w)) row' →
    reload_fault (storage rq) = None →
    update_outcome k rq w (JTask (to_dict row'), 200)
      {| rows := <[id row := row']> (rows w); next_id := next_id w;
         ticks := S (ticks w) |}
| upd_reload_unchanged row o m :
    on_query (storage rq) = None → rows w !! k = Some row →
    assigned (get_json rq) (attrs_of row) = inr o →
    modified row o = false →
    on_commit (storage rq) = None →
    reload_fault (storage rq) = Some m →
    update_outcome k rq w (JError (DBAPIError m), 500) w
| upd_reload_written row o row' m :
    on_query (storage rq) = None → rows w !! k = Some row →
    assigned (get_json rq) (attrs_of row) = inr o →
    modified row o = true →
    on_flush (storage rq) = None → on_commit (storage rq) = None →
    updated_row row o (clock (ticks w)) row' →
    reload_fault (storage rq) = Some m →
    update_outcome k rq w (JError (DBAPIError m), 500)
      {| rows := <[id row := row']> (rows w); next_id := next_id w;
         ticks := S (ticks w) |}.

(** *** DELETE: every way [delete_task] can end *)

Inductive delete_outcome (k : Z) (rq : request) (w : world) : response → world → Prop :=
| del_query_fault m :
    on_query (storage rq) = Some m →
    delete_outcome k rq w (JError (DBAPIError m), 500) w
| del_not_found :
    on_query (storage rq) = None → rows w !! k = None →
    delete_outcome k rq w (JError NotFound, 500) w
| del_storage_error row e :
    on_query (storage rq) = None → rows w !! k = Some row →
    storage_fault (storage rq) true e →
    delete_outcome k rq w (JError e, 500) w
| del_done row :
    on_query (storage rq) = None → rows w !! k = Some row →
    on_flush (storage rq) = None → on_commit (storage rq) = None →
    delete_outcome k rq w (JDeleted, 200)
      {| rows := delete (id row) (rows w); next_id := next_id w; ticks := ticks w |}.

(** *** POST: every way [create_task] can end *)

Inductive create_outcome (rq : request) (w : world) : response → world → Prop :=
| cr_rejected :
    on_json create_rejects (get_json rq) = inr true →
    create_outcome rq w (JTitleRequired, 400) w
| cr_bad_body e :
    on_json create_rejects (get_json rq) = inl e ∨
    (on_json create_rejects (get_json rq) = inr false ∧ on_json create_attrs (get_json rq) = inl e) →
    create_outcome rq w (JError e, 500) w
| cr_storage_error o e w' :
    on_json create_rejects (get_json rq) = inr false →
    on_json create_attrs (get_json rq) = inr o →
    quiet w w' → insert_failure (storage rq) o e →
    create_outcome rq w (JError e, 500) w'
| cr_created o row :
    on_json create_rejects (get_json rq) = inr false →
    on_json create_attrs (get_json rq) = inr o →
    on_flush (storage rq) = None → on_commit (storage rq) = None →
    inserted_row o w row →
    reload_fault (storage rq) = None →
    create_outcome rq w (JTask (to_dict row), 201)
      {| rows := <[next_id w := row]> (rows w); next_id := next_id w + 1;
         ticks := S (S (ticks w)) |}
| cr_reload_error o row m :
    on_json create_rejects (get_json rq) = inr false →
    on_json create_attrs (get_json rq) = inr o →
    on_flush (storage rq) = None → on_commit (storage rq) = None →
    inserted_row o w row →
    reload_fault (storage rq) = Some m →
    create_outcome rq w (JError (DBAPIError m), 500)
      {| rows := <[next_id w := row]> (rows w); next_id := next_id w + 1;
         ticks := S (S (ticks w)) |}.

End Outcomes.

(** ** What one request can do to the world *)

Section Worlds.

Variable clock : nat → Z.
Variable store_cast : column → pyval → exn + string.

Inductive transition (w w' : world) : Prop :=
| tr_quiet :
    quiet w w' → transition w w'
| tr_insert o row :
    inserted_row clock store_cast o w row →
    w' = {| rows := <[next_id w := row]> (rows w); next_id := next_id w + 1;
            ticks := S (S (ticks w)) |} →
    transition w w'
| tr_update k row o row' :
    rows w !! k = Some row →
    updated_row store_cast row o (clock (ticks w)) row' →
    w' = {| rows := <[id row := row']> (rows w); next_id := next_id w;
            ticks := S (ticks w) |} →
    transition w w'
| tr_delete k row :
    rows w !! k = Some row →
    w' = {| rows := delete (id row) (rows w); next_id := next_id w;
            ticks := ticks w |} →
    transition w w'.

(** A row carries two readings of the clock taken in order before now. *)
Definition stamped (n : nat) (row : Task) : Prop :=
  ∃ i j : nat, (i ≤ j < n)%nat ∧ created_at row = clock i ∧ updated_at row = clock j.

Record wf (w : world) : Prop := {
  wf_seq : 1 ≤ next_id w;
  wf_key : ∀ k row, rows w !! k = Some row → id row = k ∧ 1 ≤ k < next_id w;
  wf_stamps : ∀ k row, rows w !! k = Some row → stamped (ticks w) row
}.

Definition try_block (v : mutation) : M response :=
  match v with
  | Create rq => create_task_try clock store_cast rq
  | Update k rq => update_task_try clock store_cast k rq
  | Delete k rq => delete_task_try clock store_cast k rq
  end.

Definition handler (v : mutation) : M response :=
  match v with
  | Create rq => create_task clock store_cast rq
  | Update k rq => update_task clock store_cast k rq
  | Delete k rq => delete_task clock store_cast k rq
  end.

(** The value of a body key as a column holds it: the very text, or what
    the store made of the bound value. *)
Definition persisted (c : column) (v : pyval) (new : option string) : Prop :=
  v = of_text new ∨ persist store_cast c v = inr new.

End Worlds.

(** ** Concrete environments *)

(** A clock that ticks once per microsecond from 0:00:00.999999. *)
Definition usec_clock (i : nat) : Z := 999999 + Z.of_nat i.

(** A clock that ticks once per second. *)
Definition sec_clock (i : nat) : Z := 1000000 * Z.of_nat i.

(** A database that refuses every value it has to convert. *)
Definition strict_cast (c : column) (v : pyval) : exn + string :=
  inl (DBAPIError "DataError").

Definition json_request (data : pyval) : request :=
  {| get_json := inr data; storage := no_faults |}.

(** A request without JSON body. *)
Definition no_body : request :=
  {| get_json := inl BadRequest; storage := no_faults |}.

Definition title_A : pyval := PDict [("title", PStr "A")].

(** One task created from [{"title": "A"}] with the clock ticking in
    seconds. *)
Definition one_task : world :=
  run sec_clock strict_cast [(POST_tasks, json_request title_A)] initial.

Definition task_1 : Task :=
  {| id := 1; title := "A"; description := Some ""; status := Some "pending";
     created_at := 0; updated_at := 1000000 |}.

Definition commit_fails : faults :=
  {| on_query := None; on_flush := None; on_commit := Some "connection lost";
     on_refresh := None |}.


Definition task_1_done : Task :=
  {| id := 1; title := "A"; description := Some ""; status := Some "done";
     created_at := 0; updated_at := 2000000 |}.

Definition after_update : world :=
  run sec_clock strict_cast
    [(PUT_task 1, json_request (PDict [("status", PStr "done")]))] one_task.

Definition query_fails : faults :=
  {| on_query := Some "connection lost"; on_flush := None; on_commit := None;
     on_refresh := None |}.

Definition status_done : pyval := PDict [("status", PStr "done")].

Definition title_B_null_status : pyval :=
  PDict [("title", PStr "B"); ("status", PNone)].

Definition null_title : list (string * pyval) := [("title", PNone)].

(** A second task created from [{"title": "A"}] after the first. *)
Definition two_tasks : world :=
  run sec_clock strict_cast [(POST_tasks, json_request title_A)] one_task.

Definition task_2_dict : task_dict :=
  {| d_id := 2; d_title := "A"; d_description := Some ""; d_status := Some "pending";
     d_created_at := 2000000; d_updated_at := 3000000 |}.

(** * Properties *)

Arguments persist : simpl never.
Arguments insert_value : simpl never.
Arguments same_text : simpl never.
Arguments modified : simpl never.
Arguments py_in : simpl never.
Arguments py_getitem : simpl never.
Arguments py_get : simpl never.
Arguments truthy : simpl never.

(** Two facts about the same computed value are merged. *)
Ltac one_outcome :=
  repeat match goal with
         | H1 : ?x = _, H2 : ?x = _ |- _ => rewrite H1 in H2; simplify_eq
         end.

(** ** Summaries of the session operations *)

Section Summaries.

Variable clock : nat → Z.
Variable store_cast : column → pyval → exn + string.

Local Abbreviation persist := (persist store_cast).

Lemma get_or_404_run fl k c :
  get_or_404 fl k c =
  match on_query fl with
  | Some m => (inl (DBAPIError m), c)
  | None =>
      match txn c !! k with
      | None => (inl NotFound, c)
      | Some row =>
          (inr tt, {| db := db c; txn := txn c;
                      session := Some (Persistent row (attrs_of row)) |})
      end
  end.
Proof.
  unfold get_or_404, query_get, bind, fault, get_ctx.
  destruct (on_query fl); simpl; [done|].
  by destruct (txn c !! k).
Qed.

Lemma assign_if_present_run data key col w t row o :
  assign_if_present data key col
    {| db := w; txn := t; session := Some (Persistent row o) |} =
  match assign data key col o with
  | inl e => (inl e, {| db := w; txn := t; session := Some (Persistent row o) |})
  | inr o' => (inr tt, {| db := w; txn := t; session := Some (Persistent row o') |})
  end.
Proof.
  unfold assign_if_present, assign, bind, lift.
  destruct (py_in key data) as [e|[]]; simpl; try done.
  by destruct (py_getitem data key).
Qed.

Lemma commit_persistent fl w t row o :
  match commit clock store_cast fl
          {| db := w; txn := t; session := Some (Persistent row o) |} with
  | (inr _, c') =>
      on_commit fl = None ∧
      ((modified row o = false ∧
        c' = {| db := {| rows := t; next_id := next_id w; ticks := ticks w |};
                txn := t; session := Some (Persistent row o) |}) ∨
       (modified row o = true ∧ on_flush fl = None ∧
        ∃ row', updated_row store_cast row o (clock (ticks w)) row' ∧
          c' = {| db := {| rows := <[id row := row']> t; next_id := next_id w;
                           ticks := S (ticks w) |};
                  txn := <[id row := row']> t;
                  session := Some (Persistent row' (attrs_of row')) |}))
  | (inl e, c') => quiet w (db c') ∧ update_failure store_cast fl row o e
  end.
Proof.
  unfold commit, transaction_commit, flush_update, not_null, utcnow, bind, lift,
    fault, get_ctx, set_session, set_txn, set_db, ret, raise, quiet,
    update_failure, storage_fault.
  simpl. destruct (modified row o) eqn:Hm; simpl.
  2:{ destruct (on_commit fl); simpl; [|by eauto].
      split; [eauto with lia|]. do 3 right. left. eauto. }
  unfold field_set.
  destruct (same_text (a_title o) (Some (title row))) eqn:Ht; simpl;
  [|destruct (persist Title (a_title o)) as [?|nt] eqn:Hpt; simpl;
    [split; [eauto with lia | by left]|]];
  (destruct (same_text (a_description o) (description row)) eqn:Hd; simpl;
   [|destruct (persist Description (a_description o)) eqn:Hpd; simpl;
     [split; [eauto with lia | by right; left]|]]);
  (destruct (same_text (a_status o) (status row)) eqn:Hs; simpl;
   [|destruct (persist Status (a_status o)) eqn:Hps; simpl;
     [split; [eauto with lia | by right; right; left]|]]);
  (destruct (on_flush fl); simpl;
   [split; [eauto with lia | do 3 right; left; eauto]|]);
  try (destruct nt; simpl; [|split; [eauto with lia | by do 4 right]]);
  (destruct (on_commit fl); simpl;
   [split; [eauto with lia | do 3 right; left; eauto]|]);
  (split; [done|right; split; [done|split; [done|]]]);
  (eexists; split; [|reflexivity]);
  (split; simpl; unfold field_set; rewrite ?Ht, ?Hd, ?Hs; done).
Qed.

Lemma quiet_refl w : quiet w w.
Proof. unfold quiet. eauto with lia. Qed.

Lemma world_eta w : {| rows := rows w; next_id := next_id w; ticks := ticks w |} = w.
Proof. by destruct w. Qed.

Lemma instance_id_run fl w t row o :
  instance_id fl {| db := w; txn := t; session := Some (Persistent row o) |} =
  match reload_fault fl with
  | Some m =>
      (inl (DBAPIError m), {| db := w; txn := t; session := Some (Persistent row o) |})
  | None => (inr (id row), {| db := w; txn := t; session := Some (Persistent row o) |})
  end.
Proof.
  unfold instance_id, bind, fault, get_ctx. by destruct (reload_fault fl).
Qed.

Lemma update_task_outcome k rq w r w' :
  serve (update_task clock store_cast k rq) w = (r, w') →
  update_outcome clock store_cast k rq w r w'.
Proof.
  unfold serve, update_task, try_except, update_task_try, begin.
  unfold bind at 1. rewrite get_or_404_run. simpl.
  destruct (on_query (storage rq)) eqn:Hq; simpl.
  { intros [= <- <-]. by constructor. }
  destruct (rows w !! k) as [row|] eqn:Hk; simpl.
  2:{ intros [= <- <-]. by constructor. }
  unfold bind at 1, lift at 1.
  destruct (get_json rq) as [e|data] eqn:Hj; simpl.
  { intros [= <- <-]. eapply upd_bad_body; eauto. by rewrite Hj. }
  unfold bind at 1. rewrite assign_if_present_run.
  destruct (assign data "title" Title (attrs_of row)) as [e|o1] eqn:H1; simpl.
  { intros [= <- <-]. eapply upd_bad_body; eauto.
    rewrite Hj. unfold assigned, on_json, assignments. by rewrite H1. }
  unfold bind at 1. rewrite assign_if_present_run.
  destruct (assign data "description" Description o1) as [e|o2] eqn:H2; simpl.
  { intros [= <- <-]. eapply upd_bad_body; eauto.
    rewrite Hj. unfold assigned, on_json, assignments. by rewrite H1, H2. }
  unfold bind at 1. rewrite assign_if_present_run.
  destruct (assign data "status" Status o2) as [e|o] eqn:H3; simpl.
  { intros [= <- <-]. eapply upd_bad_body; eauto.
    rewrite Hj. unfold assigned, on_json, assignments. by rewrite H1, H2. }
  assert (Ha : assigned (get_json rq) (attrs_of row) = inr o).
  { rewrite Hj. unfold assigned, on_json, assignments. by rewrite H1, H2. }
  unfold bind at 1.
  pose proof (commit_persistent (storage rq) w (rows w) row o) as Hc.
  destruct (commit _ _ _ _) as [[e|?] c'].
  { simpl. destruct Hc. intros [= <- <-]. eapply upd_storage_error; eauto. }
  destruct Hc as [Hoc [[Hm ->]|(Hm & Hof & row' & Hrow & ->)]];
    unfold bind at 1; rewrite instance_id_run;
    destruct (reload_fault (storage rq)) eqn:Hr; simpl; intros [= <- <-].
  - rewrite world_eta. eapply upd_reload_unchanged; eauto.
  - rewrite world_eta. eapply upd_unchanged; eauto.
  - eapply upd_reload_written; eauto.
  - eapply upd_written; eauto.
Qed.

Lemma commit_deleted fl w t row :
  match commit clock store_cast fl
          {| db := w; txn := t; session := Some (Deleted row) |} with
  | (inr _, c') =>
      on_flush fl = None ∧ on_commit fl = None ∧
      c' = {| db := {| rows := delete (id row) t; next_id := next_id w;
                       ticks := ticks w |};
              txn := delete (id row) t; session := None |}
  | (inl e, c') =>
      db c' = w ∧ storage_fault fl true e
  end.
Proof.
  unfold commit, transaction_commit, flush_delete, bind, fault, get_ctx,
    set_session, set_txn, set_db, ret, raise, storage_fault.
  simpl. destruct (on_flush fl); simpl; [eauto 7|].
  destruct (on_commit fl); simpl; eauto 7.
Qed.

Lemma delete_task_outcome k rq w r w' :
  serve (delete_task clock store_cast k rq) w = (r, w') →
  delete_outcome k rq w r w'.
Proof.
  unfold serve, delete_task, try_except, delete_task_try, begin.
  unfold bind at 1. rewrite get_or_404_run. simpl.
  destruct (on_query (storage rq)) eqn:Hq; simpl.
  { intros [= <- <-]. by constructor. }
  destruct (rows w !! k) as [row|] eqn:Hk; simpl.
  2:{ intros [= <- <-]. by constructor. }
  unfold bind at 1. simpl. unfold bind at 1.
  pose proof (commit_deleted (storage rq) w (rows w) row) as Hc.
  destruct (commit _ _ _ _) as [[e|?] c'].
  { simpl. destruct Hc as (-> & Hm). intros [= <- <-].
    eapply del_storage_error; eauto. }
  destruct Hc as (Hf & Hoc & ->). simpl. intros [= <- <-].
  eapply del_done; eauto.
Qed.

Lemma commit_pending fl w t o :
  match commit clock store_cast fl
          {| db := w; txn := t; session := Some (Pending o) |} with
  | (inr _, c') =>
      on_flush fl = None ∧ on_commit fl = None ∧
      ∃ row, inserted_row clock store_cast o w row ∧
        c' = {| db := {| rows := <[next_id w := row]> t; next_id := next_id w + 1;
                         ticks := S (S (ticks w)) |};
                txn := <[next_id w := row]> t;
                session := Some (Persistent row (attrs_of row)) |}
  | (inl e, c') => quiet w (db c') ∧ insert_failure store_cast fl o e
  end.
Proof.
  unfold commit, transaction_commit, flush_insert, not_null, utcnow, bind, lift,
    fault, get_ctx, set_session, set_txn, set_db, ret, raise, quiet,
    insert_failure, storage_fault.
  simpl.
  destruct (insert_value _ Title (a_title o)) as [?|nt] eqn:Ht; simpl;
    [split; [eauto with lia | by left]|].
  destruct (insert_value _ Description (a_description o)) eqn:Hd; simpl;
    [split; [eauto with lia | by right; left]|].
  destruct (insert_value _ Status (a_status o)) eqn:Hs; simpl;
    [split; [eauto with lia | by right; right; left]|].
  destruct (on_flush fl); simpl; [split; [eauto with lia | do 3 right; left; eauto]|].
  destruct nt; simpl; [|split; [eauto with lia | by do 4 right]].
  destruct (on_commit fl); simpl; [split; [eauto with lia | do 3 right; left; eauto]|].
  do 2 (split; [done|]). eexists; split; [|reflexivity].
  by split.
Qed.

Lemma create_task_outcome rq w r w' :
  serve (create_task clock store_cast rq) w = (r, w') →
  create_outcome clock store_cast rq w r w'.
Proof.
  unfold serve, create_task, try_except, create_task_try, begin.
  unfold bind at 1, lift at 1.
  destruct (get_json rq) as [e|data] eqn:Hg; simpl.
  { intros [= <- <-]. constructor. left. by rewrite Hg. }
  unfold bind at 1.
  assert (Hr : ∀ c, (if negb (truthy data) then ret true
                     else let* b := lift (py_in "title" data) in ret (negb b)) c
               = match create_rejects data with
                 | inl e => (inl e, c)
                 | inr b => (inr b, c)
                 end).
  { intros c. unfold create_rejects, bind, lift.
    destruct (negb _); [done|]. by destruct (py_in _ _). }
  rewrite Hr. clear Hr.
  destruct (create_rejects data) as [e|[]] eqn:Hj; simpl.
  { intros [= <- <-]. constructor. left. by rewrite Hg. }
  { intros [= <- <-]. constructor. by rewrite Hg. }
  assert (Hrej : on_json create_rejects (get_json rq) = inr false) by by rewrite Hg.
  unfold bind at 1, lift at 1.
  destruct (py_getitem data "title") as [e|vt] eqn:Ht; simpl.
  { intros [= <- <-]. constructor. right. split; [done|].
    rewrite Hg. unfold on_json, create_attrs. by rewrite Ht. }
  unfold bind at 1, lift at 1.
  destruct (py_get data "description" (PStr "")) as [e|vd] eqn:Hd; simpl.
  { intros [= <- <-]. constructor. right. split; [done|].
    rewrite Hg. unfold on_json, create_attrs. by rewrite Ht, Hd. }
  unfold bind at 1, lift at 1.
  destruct (py_get data "status" (PStr "pending")) as [e|vs] eqn:Hs; simpl.
  { intros [= <- <-]. constructor. right. split; [done|].
    rewrite Hg. unfold on_json, create_attrs. by rewrite Ht, Hd, Hs. }
  unfold bind at 1. simpl. unfold bind at 1.
  set (o := {| a_title := vt; a_description := vd; a_status := vs |}).
  assert (Ho : on_json create_attrs (get_json rq) = inr o).
  { rewrite Hg. unfold on_json, create_attrs. by rewrite Ht, Hd, Hs. }
  pose proof (commit_pending (storage rq) w (rows w) o) as Hc.
  destruct (commit _ _ _ _) as [[e|?] c'].
  { simpl. destruct Hc. intros [= <- <-]. eapply cr_storage_error; eauto. }
  destruct Hc as (Hf & Hoc & row & Hrow & ->).
  unfold bind at 1. rewrite instance_id_run.
  destruct (reload_fault (storage rq)) eqn:Hr; simpl; intros [= <- <-].
  - eapply cr_reload_error; eauto.
  - eapply cr_created; eauto.
Qed.

End Summaries.

(** ** Invariants of the reachable worlds *)

Section Invariants.

Variable clock : nat → Z.
Variable store_cast : column → pyval → exn + string.

Lemma serve_health_quiet rq w :
  quiet w (serve (health_check clock rq) w).2.
Proof.
  unfold serve, health_check, try_except, bind, fault, utcnow, ret, raise, quiet.
  destruct (on_query (storage rq)); simpl; eauto with lia.
Qed.

Lemma serve_get_tasks_same rq w : (serve (get_tasks rq) w).2 = w.
Proof.
  unfold serve, get_tasks, try_except, query_all, bind, fault, get_ctx, ret, raise.
  by destruct (on_query (storage rq)).
Qed.

Lemma serve_get_task_same k rq w : (serve (get_task k rq) w).2 = w.
Proof.
  unfold serve, get_task. unfold bind at 1. rewrite get_or_404_run. simpl.
  destruct (on_query (storage rq)); [done|].
  by destruct (rows w !! k).
Qed.

Lemma step_transition w call : transition clock store_cast w (step clock store_cast w call).
Proof.
  destruct call as [r rq]. unfold step. simpl.
  destruct r; simpl.
  - apply tr_quiet, serve_health_quiet.
  - apply tr_quiet, quiet_refl.
  - rewrite serve_get_tasks_same. apply tr_quiet, quiet_refl.
  - rewrite serve_get_task_same. apply tr_quiet, quiet_refl.
  - destruct (serve _ w) as [r w'] eqn:H. apply create_task_outcome in H.
    destruct H; simpl; try (apply tr_quiet; first [apply quiet_refl | done]);
      by eapply tr_insert.
  - destruct (serve _ w) as [r w'] eqn:H. apply update_task_outcome in H.
    destruct H; simpl; try (apply tr_quiet; first [apply quiet_refl | done]);
      by eapply tr_update.
  - destruct (serve _ w) as [r w'] eqn:H. apply delete_task_outcome in H.
    destruct H; simpl; try (apply tr_quiet; first [apply quiet_refl | done]).
    by eapply tr_delete.
  - apply tr_quiet, quiet_refl.
Qed.

Lemma wf_initial : wf clock initial.
Proof. split; simpl; [lia | |]; intros k row; by rewrite lookup_empty. Qed.

Lemma stamped_mono n n' row : (n ≤ n')%nat → stamped clock n row → stamped clock n' row.
Proof. intros Hn (i & j & Hij & Hc & Hu). exists i, j. eauto with lia. Qed.

Lemma transition_wf w w' : wf clock w → transition clock store_cast w w' → wf clock w'.
Proof.
  intros [Hseq Hkey Hst] [(Hr & Hn & Ht) | o row Hrow -> | k row o row' Hk Hrow -> | k row Hk ->].
  - split; [lia | |]; intros k row; rewrite Hr; intros Hk.
    + destruct (Hkey _ _ Hk). split; [done | lia].
    + eapply stamped_mono; eauto.
  - destruct Hrow as [Hid Hc Hu _ _ _].
    split; simpl; [lia | |]; intros k row'; rewrite lookup_insert;
      case_decide; intros Hk; simplify_eq.
    + split; [done | lia].
    + destruct (Hkey _ _ Hk). split; [done | lia].
    + exists (ticks w), (S (ticks w)). eauto with lia.
    + eapply stamped_mono; [|eauto]. lia.
  - destruct Hrow as [Hid Hc Hu _ _ _]. destruct (Hkey _ _ Hk) as [Hidk Hb].
    split; simpl; [lia | |]; intros k' r; rewrite lookup_insert;
      case_decide; intros Hk'; simplify_eq.
    + split; [congruence | lia].
    + eauto.
    + destruct (Hst _ _ Hk) as (i & j & Hij & Hci & _).
      exists i, (ticks w). split; [lia|]. split; congruence.
    + eapply stamped_mono; [|eauto]. lia.
  - split; simpl; [lia | |]; intros k' r; rewrite lookup_delete;
      case_decide; intros Hk'; simplify_eq; eauto.
Qed.

Lemma run_wf calls w : wf clock w → wf clock (run clock store_cast calls w).
Proof.
  revert w. induction calls as [|call calls IH]; intros w Hw; [done|].
  simpl. apply IH. eapply transition_wf; [done|]. apply step_transition.
Qed.

Lemma reachable_wf w : reachable clock store_cast w → wf clock w.
Proof. intros [calls ->]. apply run_wf, wf_initial. Qed.

(** A row that is still there after a request has its [created_at]; a key
    below the sequence that has no row gets none. *)
Lemma transition_created_at w w' k :
  wf clock w → transition clock store_cast w w' → k < next_id w →
  next_id w ≤ next_id w' ∧
  ∀ row', rows w' !! k = Some row' →
    ∃ row, rows w !! k = Some row ∧ created_at row' = created_at row.
Proof.
  intros [Hseq Hkey Hst] [(Hr & Hn & Ht) | o row Hrow -> | k0 row o row' Hk Hrow -> | k0 row Hk ->] Hlt;
    simpl; (split; [lia|]); intros r.
  - rewrite Hr. eauto.
  - rewrite lookup_insert. case_decide; [lia|]. eauto.
  - destruct Hrow as [Hid Hc _ _ _ _]. destruct (Hkey _ _ Hk) as [Hidk _].
    rewrite lookup_insert. case_decide; intros Hr; simplify_eq; eauto.
  - rewrite lookup_delete. case_decide; [done|]. eauto.
Qed.

Lemma run_created_at calls w k row row' :
  wf clock w → rows w !! k = Some row →
  rows (run clock store_cast calls w) !! k = Some row' →
  created_at row' = created_at row.
Proof.
  intros Hw Hk.
  assert (Hlt : k < next_id w) by (destruct Hw as [_ Hkey _]; destruct (Hkey _ _ Hk); lia).
  assert (Hinv : ∀ r, rows w !! k = Some r → created_at r = created_at row)
    by (intros r; rewrite Hk; congruence).
  clear Hk. revert w Hw Hlt Hinv row'.
  induction calls as [|call calls IH]; intros w Hw Hlt Hinv row'; simpl; [by eauto|].
  pose proof (step_transition w call) as Htr.
  destruct (transition_created_at _ _ k Hw Htr Hlt) as [Hn Hc].
  apply IH; [by eapply transition_wf | lia |].
  intros r Hr. destruct (Hc _ Hr) as (r0 & Hr0 & ->). eauto.
Qed.

End Invariants.

(** ** Python operations and handlers on particular values *)

Example in_on_dict : py_in "title" (PDict [("status", PStr "x"); ("title", PNone)]) = inr true.
Proof. reflexivity. Qed.

Example in_on_list : py_in "title" (PList [PInt 1; PStr "title"]) = inr true.
Proof. reflexivity. Qed.

Example in_on_str : py_in "title" (PStr "subtitles") = inr true.
Proof. reflexivity. Qed.

Example in_on_str_prefix_only : py_in "title" (PStr "titl") = inr false.
Proof. reflexivity. Qed.

Example in_on_none : py_in "title" PNone = inl TypeError.
Proof. reflexivity. Qed.

Example getitem_on_list : py_getitem (PList [PStr "title"]) "title" = inl TypeError.
Proof. reflexivity. Qed.

Example falsy_values :
  map truthy [PNone; PBool false; PInt 0; PFloat 0 0; PStr ""; PList []; PDict []]
  = [false; false; false; false; false; false; false].
Proof. reflexivity. Qed.

Example title_too_long :
  plain Title (String.concat "" (repeat "0123456789" 21)) = false.
Proof. reflexivity. Qed.

Example create_then_list :
  (serve (get_tasks (json_request PNone)) one_task).1 = (JTasks [to_dict task_1], 200).
Proof. vm_compute. reflexivity. Qed.

Lemma one_task_rows : rows one_task = {[ 1 := task_1 ]}.
Proof. vm_compute. reflexivity. Qed.

Lemma one_task_lookup : rows one_task !! 1 = Some task_1.
Proof. rewrite one_task_rows. apply lookup_singleton_eq. Qed.

Lemma sec_clock_monotone : monotone sec_clock.
Proof. intros i j Hij. unfold sec_clock. lia. Defined.

Lemma one_task_reachable : reachable sec_clock strict_cast one_task.
Proof. by exists [(POST_tasks, json_request title_A)]. Defined.

Section Requests.

Variable clock : nat → Z.
Variable store_cast : column → pyval → exn + string.

Lemma same_text_of_text x : same_text (of_text x) x = true.
Proof. destruct x; unfold same_text; simpl; [apply String.eqb_refl | done]. Qed.

Lemma same_text_title s : same_text (PStr s) (Some s) = true.
Proof. apply (same_text_of_text (Some s)). Qed.

Lemma not_modified_loaded row : modified row (attrs_of row) = false.
Proof.
  unfold modified, attrs_of. simpl.
  by rewrite same_text_title, !same_text_of_text.
Qed.

Lemma persist_plain c s :
  plain c s = true → persist store_cast c (PStr s) = inr (Some s).
Proof. unfold persist. by intros ->. Qed.

(** A body in which none of the three names is found leaves the attributes
    as loaded. *)
Lemma assignments_none data o :
  py_in "title" data = inr false →
  py_in "description" data = inr false →
  py_in "status" data = inr false →
  assignments data o = inr o.
Proof. unfold assignments, assign. by intros -> -> ->. Qed.

(** For an id without a row the NotFound of [get_or_404] is caught by the
    [except Exception] of update and delete; only [get_task], which has no
    [try], lets it reach the application's 404. *)
Lemma absent_id_answers clock' cast' w k rq :
  rows w !! k = None → on_query (storage rq) = None →
  serve (update_task clock' cast' k rq) w = ((JError NotFound, 500), w) ∧
  serve (delete_task clock' cast' k rq) w = ((JError NotFound, 500), w) ∧
  serve (get_task k rq) w = ((JAborted NotFound, 404), w).
Proof.
  intros Hk Hq.
  unfold serve, update_task, delete_task, get_task, update_task_try,
    delete_task_try, try_except, begin.
  repeat split; unfold bind at 1; rewrite get_or_404_run; simpl; rewrite Hq, Hk;
    simpl; by destruct w.
Qed.

Lemma reload_fault_none fl :
  on_query fl = None → on_refresh fl = None → reload_fault fl = None.
Proof. unfold reload_fault. by intros -> ->. Qed.

Lemma reload_fault_none_inv fl :
  reload_fault fl = None → on_query fl = None ∧ on_refresh fl = None.
Proof. unfold reload_fault. by destruct (on_query fl). Qed.

(** PUT whose body cannot be read, or makes an assignment raise. *)
Lemma update_bad_body_run w k rq row e :
  rows w !! k = Some row → on_query (storage rq) = None →
  assigned (get_json rq) (attrs_of row) = inl e →
  serve (update_task clock store_cast k rq) w = ((JError e, 500), w).
Proof.
  intros Hk Hq Ha.
  destruct (serve _ w) as [r w'] eqn:H. apply update_task_outcome in H.
  destruct H; simplify_eq; one_outcome; done.
Qed.

(** PUT that leaves no net change on the instance. *)
Lemma update_unchanged_run w k rq row o :
  rows w !! k = Some row → on_query (storage rq) = None →
  on_commit (storage rq) = None → on_refresh (storage rq) = None →
  assigned (get_json rq) (attrs_of row) = inr o →
  modified row o = false →
  serve (update_task clock store_cast k rq) w = ((JTask (to_dict row), 200), w).
Proof.
  intros Hk Hq Hc Hr Ha Hm.
  pose proof (reload_fault_none _ Hq Hr) as Hrf.
  destruct (serve _ w) as [r w'] eqn:H. apply update_task_outcome in H.
  destruct H as [| | |row1 o1 e w' _ Hk1 Ha1 _ Hf|row1 o1|row1 o1 row' _ Hk1 Ha1| |];
    simplify_eq; one_outcome; try done.
  exfalso. pose proof Hm as Hm'.
  unfold modified in Hm. apply orb_false_elim in Hm as [Hm Hs].
  apply orb_false_elim in Hm as [Ht Hd].
  apply negb_false_iff in Ht, Hd, Hs.
  destruct Hf as [[? _]|[[? _]|[[? _]|[(m & _ & [[? _]|?])|(_ & ? & _)]]]]; congruence.
Qed.

Lemma assignments_sequence data o :
  is_sequence data = true →
  assignments data o = if names_a_column data then inl TypeError else inr o.
Proof.
  unfold assignments, assign, names_a_column, has_key.
  destruct data; try done; intros _; unfold py_in, py_getitem;
    repeat (match goal with |- context [if ?b then _ else _] => destruct b end;
            simpl; try done).
Qed.

Lemma assignments_scalar data o :
  (∀ d, data ≠ PDict d) → is_sequence data = false →
  assignments data o = inl TypeError.
Proof.
  unfold assignments, assign.
  destruct data; try done. intros H. by destruct (H d).
Qed.


Lemma handler_try_except v :
  handler clock store_cast v = try_except (try_block clock store_cast v) on_exception.
Proof. by destruct v. Qed.

(** A 500 of a writing handler leaves the committed rows alone, unless it
    comes from the reload after a COMMIT that went through. *)
Lemma handler_error_rows v w e w' :
  serve (handler clock store_cast v) w = ((JError e, 500), w') →
  rows w' = rows w ∨
  ∃ m, e = DBAPIError m ∧ reload_fault (storage (request_of v)) = Some m ∧
    on_flush (storage (request_of v)) = None ∧
    on_commit (storage (request_of v)) = None ∧
    ∀ k rq, v ≠ Delete k rq.
Proof.
  destruct v as [rq|k rq|k rq]; simpl; intros H.
  - apply create_task_outcome in H.
    inversion H as [| |o e' w2 _ _ [Hq _] _| |o row m _ _ Hf Hc _ Hr]; subst; eauto.
    right. exists m. by repeat split.
  - apply update_task_outcome in H.
    inversion H as [| | |row o e' w2 _ _ _ [Hq _] _| | |
                   |row o row' m _ _ _ _ Hf Hc _ Hr]; subst; eauto.
    right. exists m. by repeat split.
  - apply delete_task_outcome in H. inversion H; subst; eauto.
Qed.

Lemma insert_value_plain c s :
  plain c s = true → insert_value store_cast c (PStr s) = inr (Some s).
Proof. unfold insert_value. apply persist_plain. Qed.

Lemma same_text_true v old : same_text v old = true → v = of_text old.
Proof.
  unfold same_text. destruct v, old; try done.
  intros H. apply String.eqb_eq in H. by subst.
Qed.

(** After the three assignments an attribute is the value under its key
    when the key is found in the body, and the loaded one when not. *)
Lemma assignments_attrs data o0 o :
  assignments data o0 = inr o →
  ((py_in "title" data = inr true ∧ py_getitem data "title" = inr (a_title o)) ∨
   (py_in "title" data = inr false ∧ a_title o = a_title o0)) ∧
  ((py_in "description" data = inr true ∧
    py_getitem data "description" = inr (a_description o)) ∨
   (py_in "description" data = inr false ∧ a_description o = a_description o0)) ∧
  ((py_in "status" data = inr true ∧ py_getitem data "status" = inr (a_status o)) ∨
   (py_in "status" data = inr false ∧ a_status o = a_status o0)).
Proof.
  unfold assignments, assign.
  destruct (py_in "title" data) as [|[]]; try done;
    destruct (py_in "description" data) as [|[]];
    destruct (py_in "status" data) as [|[]];
    destruct (py_getitem data "title");
    destruct (py_getitem data "description");
    destruct (py_getitem data "status"); try done;
    intros [= <-]; simpl; eauto 10.
Qed.

Lemma field_set_kept c o_attr old new :
  field_set store_cast c (of_text old) old new → o_attr = of_text old → new = old.
Proof. unfold field_set. by rewrite same_text_of_text. Qed.

Lemma field_set_persisted c v old new :
  field_set store_cast c v old new → persisted store_cast c v new.
Proof.
  unfold field_set, persisted.
  destruct (same_text v old) eqn:Hs; [|by right].
  intros ->. left. by apply same_text_true.
Qed.

(** The columns of a row after the UPDATE of the assigned attributes: kept
    where the key is not found in the body, else what the value of the
    body leaves. *)
Lemma updated_row_frame data row o now row' :
  assignments data (attrs_of row) = inr o →
  updated_row store_cast row o now row' →
  (py_in "title" data ≠ inr true → title row' = title row) ∧
  (py_in "description" data ≠ inr true → description row' = description row) ∧
  (py_in "status" data ≠ inr true → status row' = status row) ∧
  (∀ v, py_getitem data "title" = inr v → py_in "title" data = inr true →
        persisted store_cast Title v (Some (title row'))) ∧
  (∀ v, py_getitem data "description" = inr v → py_in "description" data = inr true →
        persisted store_cast Description v (description row')) ∧
  (∀ v, py_getitem data "status" = inr v → py_in "status" data = inr true →
        persisted store_cast Status v (status row')).
Proof.
  intros Ha [_ _ _ Hft Hfd Hfs].
  apply assignments_attrs in Ha as (Ht & Hd & Hs). simpl in Ht, Hd, Hs.
  split; [|split; [|split; [|split; [|split]]]].
  - intros Hn. destruct Ht as [[? _]|[_ Hat]]; [done|].
    rewrite Hat in Hft.
    apply (field_set_kept Title (PStr (title row)) (Some (title row))) in Hft; [|done].
    congruence.
  - intros Hn. destruct Hd as [[? _]|[_ Hat]]; [done|].
    rewrite Hat in Hfd. by eapply field_set_kept in Hfd.
  - intros Hn. destruct Hs as [[? _]|[_ Hat]]; [done|].
    rewrite Hat in Hfs. by eapply field_set_kept in Hfs.
  - intros v Hv Hin. destruct Ht as [[_ Hg]|[? _]]; [|congruence].
    assert (v = a_title o) as -> by congruence. by eapply field_set_persisted.
  - intros v Hv Hin. destruct Hd as [[_ Hg]|[? _]]; [|congruence].
    assert (v = a_description o) as -> by congruence. by eapply field_set_persisted.
  - intros v Hv Hin. destruct Hs as [[_ Hg]|[? _]]; [|congruence].
    assert (v = a_status o) as -> by congruence. by eapply field_set_persisted.
Qed.

(** When the assignments leave no net change, the values of the body are
    those of the row. *)
Lemma unchanged_row_frame data row o :
  assignments data (attrs_of row) = inr o →
  modified row o = false →
  (∀ v, py_getitem data "title" = inr v → py_in "title" data = inr true →
        persisted store_cast Title v (Some (title row))) ∧
  (∀ v, py_getitem data "description" = inr v → py_in "description" data = inr true →
        persisted store_cast Description v (description row)) ∧
  (∀ v, py_getitem data "status" = inr v → py_in "status" data = inr true →
        persisted store_cast Status v (status row)).
Proof.
  intros Ha Hm. apply assignments_attrs in Ha as (Ht & Hd & Hs).
  unfold modified in Hm. apply orb_false_elim in Hm as [Hm Hms].
  apply orb_false_elim in Hm as [Hmt Hmd].
  apply negb_false_iff, same_text_true in Hmt, Hmd, Hms.
  repeat split; intros v Hv Hin; left.
  - destruct Ht as [[_ ?]|[? _]]; congruence.
  - destruct Hd as [[_ ?]|[? _]]; congruence.
  - destruct Hs as [[_ ?]|[? _]]; congruence.
Qed.

Lemma create_task_try_run rq c :
  create_task_try clock store_cast rq c =
  match on_json create_rejects (get_json rq) with
  | inl e => (inl e, c)
  | inr true => (inr (JTitleRequired, 400), c)
  | inr false =>
      match on_json create_attrs (get_json rq) with
      | inl e => (inl e, c)
      | inr o =>
          (let* _ := session_add o in
           let* _ := commit clock store_cast (storage rq) in
           let* _ := instance_id (storage rq) in
           let* r := instance_to_dict in
           ret (JTask r, 201)) c
      end
  end.
Proof.
  unfold create_task_try, on_json.
  unfold bind at 1, lift at 1.
  destruct (get_json rq) as [e|data]; simpl; [done|].
  unfold create_rejects, create_attrs.
  unfold bind at 1.
  destruct (negb (truthy data)); simpl; [done|].
  unfold bind at 1, lift at 1.
  destruct (py_in "title" data) as [e|[]]; simpl; try done.
  unfold bind at 1, lift at 1.
  destruct (py_getitem data "title"); simpl; [done|].
  unfold bind at 1, lift at 1.
  destruct (py_get data "description" (PStr "")); simpl; [done|].
  unfold bind at 1, lift at 1.
  by destruct (py_get data "status" (PStr "pending")).
Qed.

Lemma create_rejects_dict d :
  create_rejects (PDict d) =
  inr (match dict_get "title" d with Some _ => false | None => true end).
Proof.
  unfold create_rejects, truthy, py_in.
  destruct d as [|kv d]; [done|]. by destruct (dict_get "title" (kv :: d)).
Qed.

End Requests.

(** * The claims *)

Section Claims.

Variable clock : nat → Z.
Variable store_cast : column → pyval → exn + string.

(** C2 (amended): a PUT on an existing task whose body has none of title,
    description, status is a no-op that returns 200 with the task as it
    was and leaves every stored field unchanged, [updated_at] included. *)
Theorem noop_update_changes_nothing w k rq data row :
  rows w !! k = Some row →
  on_query (storage rq) = None → on_commit (storage rq) = None →
  on_refresh (storage rq) = None →
  get_json rq = inr data →
  py_in "title" data = inr false →
  py_in "description" data = inr false →
  py_in "status" data = inr false →
  serve (update_task clock store_cast k rq) w = ((JTask (to_dict row), 200), w).
Proof.
  intros Hk Hq Hc Hr Hj Ht Hd Hs.
  eapply update_unchanged_run; eauto using not_modified_loaded.
  rewrite Hj. by apply assignments_none.
Qed.


(** C5 (amended): POST with [{"title": "A"}], when the store takes the
    row, returns 201 with a positive id, the title, description "" and
    status "pending"; [created_at] and [updated_at] are two successive
    readings of the clock, so [created_at <= updated_at]. *)
Theorem create_title_A w rq :
  monotone clock → reachable clock store_cast w →
  get_json rq = inr (PDict [("title", PStr "A")]) →
  on_flush (storage rq) = None → on_commit (storage rq) = None →
  on_query (storage rq) = None → on_refresh (storage rq) = None →
  ∃ t w', serve (create_task clock store_cast rq) w = ((JTask t, 201), w') ∧
    0 < d_id t ∧ d_title t = "A" ∧
    d_description t = Some "" ∧ d_status t = Some "pending" ∧
    d_created_at t = clock (ticks w) ∧ d_updated_at t = clock (S (ticks w)) ∧
    d_created_at t ≤ d_updated_at t.
Proof.
  intros Hmono Hw Hj Hf Hc Hq Hrf. apply reachable_wf in Hw. destruct Hw as [Hseq _ _].
  pose proof (reload_fault_none _ Hq Hrf) as Hrl.
  destruct (serve _ w) as [r w'] eqn:H. apply create_task_outcome in H.
  assert (Ht : insert_value store_cast Title (PStr "A") = inr (Some "A"))
    by by apply insert_value_plain.
  assert (Hd : insert_value store_cast Description (PStr "") = inr (Some ""))
    by by apply insert_value_plain.
  assert (Hs : insert_value store_cast Status (PStr "pending") = inr (Some "pending"))
    by by apply insert_value_plain.
  destruct H as [Hr|e [Hr|[_ Hr]]|o e w' _ Ho _ Hfail|o row _ Ho _ _ Hrow _
                |o row m _ _ _ _ _ Hr];
    rewrite ?Hj in *; try discriminate Hr; [| |congruence].
  - exfalso. injection Ho as <-. unfold insert_failure in Hfail. simpl in Hfail.
    destruct Hfail as [?|[?|[?|[(m & _ & [[_ ?]|?])|[_ ?]]]]]; congruence.
  - injection Ho as <-. destruct Hrow as [Hid Hca Hua Hti Hde Hst]. simpl in *.
    eexists _, _. split; [reflexivity|]. simpl.
    rewrite Hid, Hca, Hua.
    repeat split; [lia|congruence..|apply Hmono; lia].
Qed.

(** C6: a PUT on an existing task keeps the row, its id and its
    [created_at]; a column whose key is not found in the body keeps its
    value, whatever the outcome; [updated_at] does not go back; and on a
    200 the columns whose keys are in the body hold the values of the
    body. In particular a body with only status leaves title and
    description as they were. *)
Theorem update_overwrites_present_keys_only w k rq row r w' :
  monotone clock → reachable clock store_cast w →
  rows w !! k = Some row →
  serve (update_task clock store_cast k rq) w = (r, w') →
  ∃ row', rows w' !! k = Some row' ∧
    id row' = id row ∧ created_at row' = created_at row ∧
    updated_at row ≤ updated_at row' ∧
    (on_json (py_in "title") (get_json rq) ≠ inr true → title row' = title row) ∧
    (on_json (py_in "description") (get_json rq) ≠ inr true →
     description row' = description row) ∧
    (on_json (py_in "status") (get_json rq) ≠ inr true → status row' = status row) ∧
    (status_code r = 200 →
     r = (JTask (to_dict row'), 200) ∧
     (∀ data v, get_json rq = inr data → py_getitem data "title" = inr v →
           py_in "title" data = inr true →
           persisted store_cast Title v (Some (title row'))) ∧
     (∀ data v, get_json rq = inr data → py_getitem data "description" = inr v →
           py_in "description" data = inr true →
           persisted store_cast Description v (description row')) ∧
     (∀ data v, get_json rq = inr data → py_getitem data "status" = inr v →
           py_in "status" data = inr true →
           persisted store_cast Status v (status row'))).
Proof.
  intros Hmono Hw Hk H. apply reachable_wf in Hw.
  apply update_task_outcome in H.
  assert (Hsame : ∀ e w1, rows w1 = rows w → ∃ row', rows w1 !! k = Some row' ∧
    id row' = id row ∧ created_at row' = created_at row ∧
    updated_at row ≤ updated_at row' ∧
    (on_json (py_in "title") (get_json rq) ≠ inr true → title row' = title row) ∧
    (on_json (py_in "description") (get_json rq) ≠ inr true →
     description row' = description row) ∧
    (on_json (py_in "status") (get_json rq) ≠ inr true → status row' = status row) ∧
    (status_code (JError e, 500) = 200 →
     (JError e, 500) = (JTask (to_dict row'), 200) ∧
     (∀ data v, get_json rq = inr data → py_getitem data "title" = inr v →
           py_in "title" data = inr true →
           persisted store_cast Title v (Some (title row'))) ∧
     (∀ data v, get_json rq = inr data → py_getitem data "description" = inr v →
           py_in "description" data = inr true →
           persisted store_cast Description v (description row')) ∧
     (∀ data v, get_json rq = inr data → py_getitem data "status" = inr v →
           py_in "status" data = inr true →
           persisted store_cast Status v (status row')))).
  { intros e w1 Hr. exists row. rewrite Hr. by repeat split. }
  assert (Hwritten : ∀ data o row1,
    get_json rq = inr data → assignments data (attrs_of row) = inr o →
    updated_row store_cast row o (clock (ticks w)) row1 →
    <[id row := row1]> (rows w) !! k = Some row1 ∧
    id row1 = id row ∧ created_at row1 = created_at row ∧
    updated_at row ≤ updated_at row1 ∧
    (on_json (py_in "title") (get_json rq) ≠ inr true → title row1 = title row) ∧
    (on_json (py_in "description") (get_json rq) ≠ inr true →
     description row1 = description row) ∧
    (on_json (py_in "status") (get_json rq) ≠ inr true → status row1 = status row) ∧
    (∀ v, py_getitem data "title" = inr v → py_in "title" data = inr true →
          persisted store_cast Title v (Some (title row1))) ∧
    (∀ v, py_getitem data "description" = inr v → py_in "description" data = inr true →
          persisted store_cast Description v (description row1)) ∧
    (∀ v, py_getitem data "status" = inr v → py_in "status" data = inr true →
          persisted store_cast Status v (status row1))).
  { intros data o row1 Hj Ha Hrow. destruct Hw as [_ Hkey Hst].
    destruct (Hkey _ _ Hk) as [Hid _]. destruct (Hst _ _ Hk) as (i & j & Hij & _ & Hu).
    pose proof (updated_row_frame store_cast _ _ _ _ _ Ha Hrow) as Hframe.
    destruct Hrow as [Hid' Hc' Hu' _ _ _].
    rewrite Hj. simpl. rewrite Hid, lookup_insert_eq.
    split; [done|]. split; [congruence|]. split; [done|].
    split; [rewrite Hu, Hu'; apply Hmono; lia|]. apply Hframe. }
  assert (Hj : ∃ g, get_json rq = g) by eauto. destruct Hj as [[e0|data] Hj].
  { destruct H as [m Hq| |row1 e _ Hk1 Ha|row1 o e w' _ Hk1 Ha [Hr _] _
                  |row1 o _ Hk1 Ha|row1 o row' _ Hk1 Ha|row1 o m _ Hk1 Ha
                  |row1 o row' m _ Hk1 Ha];
      simplify_eq; try (by apply Hsame); by rewrite Hj in Ha. }
  destruct H as [m Hq| |row1 e _ Hk1 Ha|row1 o e w' _ Hk1 Ha [Hr _] _
                |row1 o _ Hk1 Ha Hm _ _|row1 o row' _ Hk1 Ha Hm _ _ Hrow _
                |row1 o m _ Hk1 Ha Hm _ _|row1 o row' m _ Hk1 Ha Hm _ _ Hrow _];
    simplify_eq; try (by apply Hsame);
    rewrite Hj in Ha; unfold assigned, on_json in Ha.
  - exists row. destruct (unchanged_row_frame store_cast _ _ _ Ha Hm) as (Ht & Hd & Hs).
    repeat split; try done; intros data' v Hj'; rewrite Hj in Hj'; simplify_eq; eauto.
  - exists row'.
    destruct (Hwritten _ _ _ Hj Ha Hrow) as (? & ? & ? & ? & ? & ? & ? & Ht & Hd & Hs).
    simpl. repeat split; try done; intros data' v Hj'; rewrite Hj in Hj'; simplify_eq; eauto.
  - exists row'.
    destruct (Hwritten _ _ _ Hj Ha Hrow) as (? & ? & ? & ? & ? & ? & ? & Ht & Hd & Hs).
    simpl. by repeat split.
Qed.

(** C7: in every reachable world each task has [created_at <= updated_at]
    (the clock not going back); whatever requests follow, a task that is
    still stored has the [created_at] it had; and that value is the clock
    reading taken when the row was inserted under a fresh id. *)
Theorem created_at_fixed_and_ordered w :
  monotone clock → reachable clock store_cast w →
  (∀ k row, rows w !! k = Some row → created_at row ≤ updated_at row) ∧
  (∀ calls k row row',
     rows w !! k = Some row →
     rows (run clock store_cast calls w) !! k = Some row' →
     created_at row' = created_at row) ∧
  (∀ rq t w',
     serve (create_task clock store_cast rq) w = ((JTask t, 201), w') →
     rows w !! d_id t = None ∧ d_created_at t = clock (ticks w)).
Proof.
  intros Hmono Hw. apply reachable_wf in Hw. split; [|split].
  - intros k row Hk. destruct Hw as [_ _ Hst].
    destruct (Hst _ _ Hk) as (i & j & Hij & -> & ->). apply Hmono. lia.
  - intros calls k row row' Hk Hk'. by eapply run_created_at.
  - intros rq t w' H. apply create_task_outcome in H.
    inversion H as [| | |o row _ _ _ _ Hrow _|]; subst.
    destruct Hrow as [Hid Hca _ _ _ _]. simpl. rewrite Hid. split; [|done].
    destruct Hw as [_ Hkey _].
    destruct (rows w !! next_id w) as [r0|] eqn:Hn; [|done].
    destruct (Hkey _ _ Hn). lia.
Qed.

(** C8: GET /health answers 200 with status healthy and the time when the
    probe statement runs, and 503 with status unhealthy and the error when
    the probe raises; in both cases the view returns, nothing is raised. *)
Theorem health_check_follows_probe rq w :
  health_check clock rq (begin w) =
    match on_query (storage rq) with
    | None => (inr (JHealthy (clock (ticks w)), 200),
               {| db := tick w; txn := rows w; session := None |})
    | Some m => (inr (JUnhealthy (DBAPIError m), 503), begin w)
    end ∧
  (status_code (serve (health_check clock rq) w).1 = 200 ↔ on_query (storage rq) = None) ∧
  (status_code (serve (health_check clock rq) w).1 = 503 ↔ on_query (storage rq) ≠ None).
Proof.
  unfold serve, health_check, try_except, bind, fault, utcnow, ret, raise, begin, tick.
  destruct (on_query (storage rq)); simpl; repeat split; done.
Qed.

(** C9 (amended): on an existing task, a PUT for which
    [request.get_json()] raises (no body that parses as JSON) returns 500
    with that exception, caught by the handler before any membership test;
    a PUT whose body is null, a boolean or a number returns 500 with the
    TypeError of the membership test; so does a string or an array that
    contains one of title, description, status (subscripting it raises).
    A string or an array that contains none of them is a no-op answered
    with 200. In the 500 cases the store is left as it is. *)
Theorem update_without_object_body w k rq row :
  rows w !! k = Some row →
  on_query (storage rq) = None →
  match get_json rq with
  | inl e => serve (update_task clock store_cast k rq) w = ((JError e, 500), w)
  | inr data =>
      (∀ d, data ≠ PDict d) →
      if negb (is_sequence data) || names_a_column data
      then serve (update_task clock store_cast k rq) w = ((JError TypeError, 500), w)
      else on_commit (storage rq) = None → on_refresh (storage rq) = None →
           serve (update_task clock store_cast k rq) w = ((JTask (to_dict row), 200), w)
  end.
Proof.
  intros Hk Hq.
  destruct (get_json rq) as [e|data] eqn:Hj.
  { eapply update_bad_body_run; eauto. by rewrite Hj. }
  intros Hd.
  destruct (is_sequence data) eqn:Hs; simpl.
  - pose proof (assignments_sequence data (attrs_of row) Hs) as Ha.
    destruct (names_a_column data).
    + eapply update_bad_body_run; eauto. by rewrite Hj.
    + intros Hc Hr. eapply update_unchanged_run; eauto using not_modified_loaded.
      by rewrite Hj.
  - eapply update_bad_body_run; eauto. rewrite Hj. by apply assignments_scalar.
Qed.

(** C10: POST reads the body through the keys title, description and
    status only: two objects that agree on these three keys get the same
    answer and leave the same world, whatever else (id, created_at,
    updated_at) they carry; the id of the created task is the next value
    of the sequence and its timestamps are readings of the clock. *)
Theorem create_reads_three_keys w fl d1 d2 :
  dict_get "title" d1 = dict_get "title" d2 →
  dict_get "description" d1 = dict_get "description" d2 →
  dict_get "status" d1 = dict_get "status" d2 →
  serve (create_task clock store_cast {| get_json := inr (PDict d1); storage := fl |}) w
  = serve (create_task clock store_cast {| get_json := inr (PDict d2); storage := fl |}) w ∧
  ∀ t w',
    serve (create_task clock store_cast {| get_json := inr (PDict d1); storage := fl |}) w
    = ((JTask t, 201), w') →
    d_id t = next_id w ∧
    d_created_at t = clock (ticks w) ∧ d_updated_at t = clock (S (ticks w)).
Proof.
  intros Ht Hd Hs. split.
  - unfold serve, create_task, try_except. rewrite !create_task_try_run. simpl.
    rewrite !create_rejects_dict. unfold create_attrs, py_getitem, py_get.
    by rewrite Ht, Hd, Hs.
  - intros t w' H. apply create_task_outcome in H.
    inversion H as [| | |o row _ _ _ _ Hrow _|]; subst.
    destruct Hrow as [Hid Hca Hua _ _ _]. by simpl.
Qed.

End Claims.

(** ** The claims on particular requests *)

(** C1 (the code departs from the claim): PUT and DELETE on an id that has
    no row answer 500, not 404. After task 1 is created and deleted, a
    second and a third DELETE of id 1 and a PUT on id 1 all return 500 with
    the description of the NotFound error, and leave the store as it is;
    GET on the same id returns 404. *)
Theorem put_delete_absent_id_500 :
  let gone := run sec_clock strict_cast [(DELETE_task 1, json_request PNone)] one_task in
  let again := serve (delete_task sec_clock strict_cast 1 (json_request PNone)) gone in
  rows gone !! 1 = None ∧
  again = ((JError NotFound, 500), gone) ∧
  serve (delete_task sec_clock strict_cast 1 (json_request PNone)) again.2
    = ((JError NotFound, 500), gone) ∧
  serve (update_task sec_clock strict_cast 1
           (json_request (PDict [("status", PStr "done")]))) gone
    = ((JError NotFound, 500), gone) ∧
  serve (get_task 1 (json_request PNone)) gone = ((JAborted NotFound, 404), gone).
Proof.
  set (gone := run _ _ _ _).
  assert (Hk : rows gone !! 1 = None) by (vm_compute; reflexivity).
  destruct (absent_id_answers sec_clock strict_cast gone 1 (json_request PNone) Hk eq_refl)
    as (_ & Hd & Hg).
  destruct (absent_id_answers sec_clock strict_cast gone 1
              (json_request (PDict [("status", PStr "done")])) Hk eq_refl)
    as (Hu & _ & _).
  simpl. rewrite Hd. simpl. rewrite Hd. done.
Qed.

(** C2 (as stated, refuted): task 1 was last written at second 1; a PUT at
    second 2 whose body has no recognised key returns 200 and the stored
    [updated_at] is the one from before, earlier than the clock: the
    timestamp is not refreshed. *)
Lemma noop_update_keeps_updated_at :
  let rq := json_request (PDict [("note", PStr "x")]) in
  let out := serve (update_task sec_clock strict_cast 1 rq) one_task in
  status_code out.1 = 200 ∧
  ∃ before after,
    rows one_task !! 1 = Some before ∧ rows out.2 !! 1 = Some after ∧
    updated_at after = updated_at before ∧
    updated_at after < sec_clock (ticks one_task).
Proof.
  simpl.
  rewrite (update_unchanged_run sec_clock strict_cast one_task 1
             (json_request (PDict [("note", PStr "x")])) task_1 (attrs_of task_1)
             one_task_lookup eq_refl eq_refl eq_refl eq_refl eq_refl).
  simpl. split; [done|]. exists task_1, task_1.
  repeat split; try apply one_task_lookup; try by vm_compute.
Qed.

(** C2 (amended) on that request. *)
Lemma noop_update_changes_nothing_witness :
  serve (update_task sec_clock strict_cast 1 (json_request (PDict [("note", PStr "x")])))
    one_task
  = ((JTask (to_dict task_1), 200), one_task).
Proof.
  apply (noop_update_changes_nothing sec_clock strict_cast one_task 1
           (json_request (PDict [("note", PStr "x")])) (PDict [("note", PStr "x")]) task_1);
    first [apply one_task_lookup | reflexivity].
Defined.




(** C5 (as stated, refuted): the two timestamps are two readings of the
    clock; with the first at 0:00:00.999999 and the second one microsecond
    later, the created task has [created_at] in second 0 and [updated_at]
    in second 1. *)
Lemma create_title_A_across_seconds :
  let out := serve (create_task usec_clock strict_cast (json_request title_A)) initial in
  ∃ t, out.1 = (JTask t, 201) ∧
    d_created_at t = 999999 ∧ d_updated_at t = 1000000 ∧
    second (d_created_at t) ≠ second (d_updated_at t).
Proof.
  eexists. split; [vm_compute; reflexivity|]. simpl. by vm_compute.
Qed.

(** C5 (amended) on a second task created after the first. *)
Lemma create_title_A_witness :
  ∃ t w',
    serve (create_task sec_clock strict_cast (json_request title_A)) one_task
    = ((JTask t, 201), w') ∧
    0 < d_id t ∧ d_title t = "A" ∧
    d_description t = Some "" ∧ d_status t = Some "pending" ∧
    d_created_at t = sec_clock (ticks one_task) ∧
    d_updated_at t = sec_clock (S (ticks one_task)) ∧
    d_created_at t ≤ d_updated_at t.
Proof.
  apply (create_title_A sec_clock strict_cast one_task (json_request title_A)
           sec_clock_monotone one_task_reachable); reflexivity.
Defined.

(** C6 on a PUT with only status: title and description are those of
    before, [updated_at] moves on. *)
Lemma update_overwrites_present_keys_only_witness :
  ∃ row', rows after_update !! 1 = Some row' ∧
    title row' = title task_1 ∧ description row' = description task_1 ∧
    created_at row' = created_at task_1 ∧
    updated_at task_1 ≤ updated_at row' ∧
    persisted strict_cast Status (PStr "done") (status row').
Proof.
  destruct (update_overwrites_present_keys_only sec_clock strict_cast one_task 1
              (json_request (PDict [("status", PStr "done")])) task_1
              (JTask (to_dict task_1_done), 200) after_update
              sec_clock_monotone one_task_reachable one_task_lookup eq_refl)
    as (row' & Hk & _ & Hc & Hu & Ht & Hd & _ & Hok).
  exists row'. split; [done|].
  split; [by apply Ht|]. split; [by apply Hd|]. split; [done|]. split; [done|].
  destruct (Hok eq_refl) as (_ & _ & _ & Hs).
  by apply (Hs (PDict [("status", PStr "done")]) (PStr "done")).
Defined.

(** C7 on the world with one task. *)
Lemma created_at_fixed_and_ordered_witness :
  (∀ k row, rows one_task !! k = Some row → created_at row ≤ updated_at row) ∧
  (∀ calls k row row',
     rows one_task !! k = Some row →
     rows (run sec_clock strict_cast calls one_task) !! k = Some row' →
     created_at row' = created_at row) ∧
  (∀ rq t w',
     serve (create_task sec_clock strict_cast rq) one_task = ((JTask t, 201), w') →
     rows one_task !! d_id t = None ∧ d_created_at t = sec_clock (ticks one_task)).
Proof.
  apply (created_at_fixed_and_ordered sec_clock strict_cast one_task
           sec_clock_monotone one_task_reachable).
Defined.

(** C9 (as stated, refuted): a PUT on task 1 whose JSON body is the empty
    array, which is not an object, returns 200. *)
Lemma update_array_body_200 :
  serve (update_task sec_clock strict_cast 1 (json_request (PList []))) one_task
  = ((JTask (to_dict task_1), 200), one_task).
Proof.
  apply (update_unchanged_run sec_clock strict_cast one_task 1
           (json_request (PList [])) task_1 (attrs_of task_1)
           one_task_lookup eq_refl eq_refl eq_refl eq_refl eq_refl).
Qed.

(** C9 (amended) on a PUT without body and on a PUT with the body null. *)
Lemma update_without_object_body_witness :
  serve (update_task sec_clock strict_cast 1 no_body) one_task
  = ((JError BadRequest, 500), one_task) ∧
  serve (update_task sec_clock strict_cast 1 (json_request PNone)) one_task
  = ((JError TypeError, 500), one_task).
Proof.
  split.
  - apply (update_without_object_body sec_clock strict_cast one_task 1 no_body task_1);
      first [apply one_task_lookup | reflexivity].
  - apply (update_without_object_body sec_clock strict_cast one_task 1
             (json_request PNone) task_1);
      first [apply one_task_lookup | reflexivity | discriminate].
Defined.

(** C10 on a body that also carries an id and a created_at. *)
Lemma create_reads_three_keys_witness :
  serve (create_task sec_clock strict_cast
           (json_request (PDict [("title", PStr "A"); ("id", PInt 99);
                                 ("created_at", PStr "1999-01-01T00:00:00")]))) one_task
  = serve (create_task sec_clock strict_cast (json_request title_A)) one_task.
Proof.
  apply (create_reads_three_keys sec_clock strict_cast one_task no_faults
           [("title", PStr "A"); ("id", PInt 99);
            ("created_at", PStr "1999-01-01T00:00:00")]
           [("title", PStr "A")]); reflexivity.
Defined.


(** * Further properties of the handlers *)

Section Reads.

Variable clock : nat → Z.
Variable store_cast : column → pyval → exn + string.

Lemma transition_next_id w w' :
  transition clock store_cast w w' → next_id w ≤ next_id w'.
Proof.
  intros [(_ & Hn & _) | o row _ -> | k row o row' _ _ -> | k row _ ->]; simpl; lia.
Qed.

Lemma run_next_id calls w : next_id w ≤ next_id (run clock store_cast calls w).
Proof.
  revert w. induction calls as [|call calls IH]; intros w; simpl; [lia|].
  etrans; [|apply IH]. apply transition_next_id, step_transition.
Qed.

Lemma get_task_run k rq w :
  serve (get_task k rq) w =
  (match on_query (storage rq) with
   | Some m => (JAborted (DBAPIError m), 500)
   | None =>
       match rows w !! k with
       | Some row => (JTask (to_dict row), 200)
       | None => (JAborted NotFound, 404)
       end
   end, w).
Proof.
  unfold serve, get_task. unfold bind at 1. rewrite get_or_404_run. simpl.
  destruct (on_query (storage rq)); simpl; [by destruct w|].
  destruct (rows w !! k); simpl; by destruct w.
Qed.

Lemma get_tasks_run rq w :
  serve (get_tasks rq) w =
  (match on_query (storage rq) with
   | Some m => (JError (DBAPIError m), 500)
   | None => (JTasks (to_dict <$> (map_to_list (rows w)).*2), 200)
   end, w).
Proof.
  unfold serve, get_tasks, try_except, query_all, bind, fault, get_ctx, ret, raise.
  destruct (on_query (storage rq)); simpl; by destruct w.
Qed.

Lemma ids_of_pairs (l : list (Z * Task)) :
  Forall (λ kr, id kr.2 = kr.1) l → id <$> l.*2 = l.*1.
Proof.
  induction 1 as [|[k row] l Hk _ IH]; [done|].
  rewrite !fmap_cons. simpl in *. by rewrite Hk, IH.
Qed.

Lemma ids_of_rows (m : gmap Z Task) :
  (∀ k row, m !! k = Some row → id row = k) →
  id <$> (map_to_list m).*2 = (map_to_list m).*1.
Proof.
  intros Hid. apply ids_of_pairs, Forall_forall.
  intros [k row] Hin. apply elem_of_map_to_list in Hin. simpl. eauto.
Qed.

(** X1: GET /api/tasks/<id> answers 200 with the dict of the stored row
    when the id has one and 404 when it has none; the view has no [try],
    so an error of the query leaves it and becomes the application's 500.
    In every case the world is left as it is. *)
Theorem get_task_answers k rq w :
  serve (get_task k rq) w =
  (match on_query (storage rq) with
   | Some m => (JAborted (DBAPIError m), 500)
   | None =>
       match rows w !! k with
       | Some row => (JTask (to_dict row), 200)
       | None => (JAborted NotFound, 404)
       end
   end, w) ∧
  (status_code (serve (get_task k rq) w).1 = 200 ↔
   on_query (storage rq) = None ∧ is_Some (rows w !! k)).
Proof.
  rewrite get_task_run. split; [done|].
  destruct (on_query (storage rq)); simpl.
  - split; [done|]. by intros [? _].
  - destruct (rows w !! k); simpl; split; try done; eauto.
    intros [_ []]. done.
Qed.

(** X2: in a reachable world GET /api/tasks answers 200 with one dict per
    stored row and nothing else: as many dicts as rows, each the dict of
    the row stored under its id, no id twice. When the query fails the
    answer is 500 with the error. The world is left as it is. *)
Theorem get_tasks_lists_the_rows rq w :
  reachable clock store_cast w →
  ∃ r, serve (get_tasks rq) w = (r, w) ∧
    match on_query (storage rq) with
    | Some m => r = (JError (DBAPIError m), 500)
    | None =>
        ∃ l, r = (JTasks l, 200) ∧
          length l = size (rows w) ∧
          NoDup (d_id <$> l) ∧
          ∀ d, d ∈ l ↔ ∃ row, rows w !! d_id d = Some row ∧ d = to_dict row
    end.
Proof.
  intros Hw. apply reachable_wf in Hw. destruct Hw as [_ Hkey _].
  rewrite get_tasks_run. eexists. split; [done|].
  destruct (on_query (storage rq)); [done|].
  eexists. split; [done|].
  assert (Hids : d_id <$> (to_dict <$> (map_to_list (rows w)).*2)
                 = (map_to_list (rows w)).*1).
  { rewrite <- list_fmap_compose.
    rewrite <- (ids_of_rows (rows w)); [done|]. intros k row Hk. by apply Hkey. }
  split; [|split].
  - by rewrite !length_fmap, length_map_to_list.
  - rewrite Hids. apply NoDup_fst_map_to_list.
  - intros d. split.
    + intros Hd. apply list_elem_of_fmap in Hd as (row & -> & Hrow).
      apply list_elem_of_fmap in Hrow as ([k row'] & -> & Hin).
      apply elem_of_map_to_list in Hin. simpl.
      destruct (Hkey _ _ Hin) as [<- _]. eauto.
    + intros (row & Hrow & ->). apply list_elem_of_fmap. exists row. split; [done|].
      apply list_elem_of_fmap. exists (d_id (to_dict row), row). split; [done|].
      by apply elem_of_map_to_list.
Qed.

(** X7: a GET route never writes: whatever the request and the state of
    the storage layer, the stored rows and the id sequence after it are
    those from before. *)
Theorem reads_keep_the_rows r rq w :
  is_read r = true →
  rows (step clock store_cast w (r, rq)) = rows w ∧
  next_id (step clock store_cast w (r, rq)) = next_id w.
Proof.
  unfold step. destruct r; try done; intros _; simpl;
    rewrite ?get_tasks_run, ?get_task_run; try done.
  unfold serve, health_check, try_except, bind, fault, utcnow, ret, raise.
  by destruct (on_query (storage rq)).
Qed.

End Reads.

Section Writes.

Variable clock : nat → Z.
Variable store_cast : column → pyval → exn + string.

(** What a 201 of POST says about the request and the worlds. *)
Lemma create_created_inv rq w t w' :
  serve (create_task clock store_cast rq) w = ((JTask t, 201), w') →
  ∃ o row,
    on_json create_rejects (get_json rq) = inr false ∧
    on_json create_attrs (get_json rq) = inr o ∧
    inserted_row clock store_cast o w row ∧ t = to_dict row ∧
    w' = {| rows := <[next_id w := row]> (rows w); next_id := next_id w + 1;
            ticks := S (S (ticks w)) |}.
Proof.
  intros H. apply create_task_outcome in H.
  inversion H as [| | |o row Hr Ho _ _ Hrow _|]; subst. eauto 10.
Qed.

(** What a 200 of PUT says about the request and the worlds. *)
Lemma update_ok_inv k rq w t w' :
  serve (update_task clock store_cast k rq) w = ((JTask t, 200), w') →
  ∃ row o,
    on_query (storage rq) = None ∧ on_commit (storage rq) = None ∧
    on_refresh (storage rq) = None ∧
    rows w !! k = Some row ∧
    assigned (get_json rq) (attrs_of row) = inr o ∧
    ((modified row o = false ∧ t = to_dict row ∧ w' = w) ∨
     (modified row o = true ∧
      ∃ row', updated_row store_cast row o (clock (ticks w)) row' ∧
        t = to_dict row' ∧
        w' = {| rows := <[id row := row']> (rows w); next_id := next_id w;
                ticks := S (ticks w) |})).
Proof.
  intros H. apply update_task_outcome in H.
  inversion H as [| | | |row o Hq Hk Ha Hm Hc Hr|row o row' Hq Hk Ha Hm Hf Hc Hrow Hr| |];
    subst; apply reload_fault_none_inv in Hr as [_ Hr].
  - exists row, o. eauto 10.
  - exists row, o. do 5 (split; [done|]). right. eauto.
Qed.

Lemma to_dict_inj row row' : to_dict row = to_dict row' → row = row'.
Proof. destruct row, row'. unfold to_dict. simpl. by intros [= -> -> -> -> -> ->]. Qed.

Lemma assignments_dict d o0 :
  assignments (PDict d) o0 =
  inr {| a_title := match dict_get "title" d with Some v => v | None => a_title o0 end;
         a_description :=
           match dict_get "description" d with Some v => v | None => a_description o0 end;
         a_status := match dict_get "status" d with Some v => v | None => a_status o0 end |}.
Proof.
  unfold assignments, assign, py_in, py_getitem.
  destruct o0. by destruct (dict_get "title" d), (dict_get "description" d),
                           (dict_get "status" d).
Qed.

Lemma create_attrs_dict d :
  create_attrs (PDict d) =
  match dict_get "title" d with
  | None => inl (KeyError "title")
  | Some t =>
      inr {| a_title := t;
             a_description :=
               match dict_get "description" d with Some v => v | None => PStr "" end;
             a_status :=
               match dict_get "status" d with Some v => v | None => PStr "pending" end |}
  end.
Proof. unfold create_attrs, py_getitem, py_get. by destruct (dict_get "title" d). Qed.

Lemma insert_value_entry c dflt entry :
  plain c dflt = true → plain_entry c entry = true →
  insert_value store_cast c (match entry with Some v => v | None => PStr dflt end)
  = inr (created_value c dflt entry).
Proof.
  intros Hd He. destruct entry as [v|]; [|by apply insert_value_plain].
  destruct v; try done. simpl in He. by apply insert_value_plain.
Qed.

(** X3: after a 201 of POST the created task is stored under its id,
    which had no row before; the other rows are untouched and there is
    one row more; a GET on the id answers 200 with the very dict the POST
    returned. *)
Theorem create_then_get rq rq' w t w' :
  reachable clock store_cast w →
  serve (create_task clock store_cast rq) w = ((JTask t, 201), w') →
  rows w !! d_id t = None ∧
  size (rows w') = S (size (rows w)) ∧
  (∀ k, k ≠ d_id t → rows w' !! k = rows w !! k) ∧
  serve (get_task (d_id t) rq') w' =
    (match on_query (storage rq') with
     | Some m => (JAborted (DBAPIError m), 500)
     | None => (JTask t, 200)
     end, w').
Proof.
  intros Hw H. apply reachable_wf in Hw. destruct Hw as [_ Hkey _].
  apply create_created_inv in H as (o & row & _ & _ & [Hid _ _ _ _ _] & -> & ->).
  simpl. rewrite Hid.
  assert (Hnone : rows w !! next_id w = None).
  { destruct (rows w !! next_id w) as [r0|] eqn:Hn; [|done].
    destruct (Hkey _ _ Hn). lia. }
  split; [done|]. split; [by apply map_size_insert_None|].
  split; [intros k Hk; by apply lookup_insert_ne|].
  rewrite get_task_run. simpl. by rewrite lookup_insert_eq.
Qed.

(** X4: POST with an object whose title is a string of at most 200
    characters without NUL, and whose description and status, when given,
    are null or such strings (status at most 50 characters), is answered
    201 when the store does not fail. The task has the next id of the
    sequence and the title as given; a missing description is "", a
    missing or null status is "pending", a null description is null, and a
    given string is stored as it is. *)
Theorem create_stores_the_body w rq d s :
  get_json rq = inr (PDict d) →
  dict_get "title" d = Some (PStr s) → plain Title s = true →
  plain_entry Description (dict_get "description" d) = true →
  plain_entry Status (dict_get "status" d) = true →
  on_flush (storage rq) = None → on_commit (storage rq) = None →
  on_query (storage rq) = None → on_refresh (storage rq) = None →
  ∃ t w', serve (create_task clock store_cast rq) w = ((JTask t, 201), w') ∧
    d_id t = next_id w ∧ d_title t = s ∧
    d_description t = created_value Description "" (dict_get "description" d) ∧
    d_status t = created_value Status "pending" (dict_get "status" d).
Proof.
  intros Hj Ht Hs Hde Hst Hf Hc Hq Hrf.
  pose proof (reload_fault_none _ Hq Hrf) as Hrl.
  pose proof (create_rejects_dict d) as Hr. rewrite Ht in Hr.
  pose proof (create_attrs_dict d) as Ha. rewrite Ht in Ha.
  pose proof (insert_value_plain store_cast Title s Hs) as Hit.
  pose proof (insert_value_entry Description "" _ eq_refl Hde) as Hid.
  pose proof (insert_value_entry Status "pending" _ eq_refl Hst) as His.
  destruct (serve _ w) as [r w'] eqn:H. apply create_task_outcome in H.
  destruct H as [Hr'|e [Hr'|[_ Hr']]|o e w' _ Ho _ Hfail|o row _ Ho _ _ Hrow _
                |o row m _ _ _ _ _ Hr'];
    rewrite ?Hj in *; simpl in *; try congruence.
  - exfalso. assert (Ho' := Ho). rewrite Ha in Ho'. injection Ho' as <-. unfold insert_failure in Hfail. simpl in Hfail.
    destruct Hfail as [?|[?|[?|[(m & _ & [[_ ?]|?])|[_ ?]]]]]; congruence.
  - assert (Ho' := Ho). rewrite Ha in Ho'. injection Ho' as <-.
    destruct Hrow as [Hi _ _ Hti Hd' Hs']. simpl in *.
    eexists _, _. split; [reflexivity|]. simpl.
    repeat split; congruence.
Qed.

Lemma storage_fault_none fl b e :
  on_flush fl = None → on_commit fl = None → ¬ storage_fault fl b e.
Proof. intros Hf Hc (m & _ & [[_ ?]|?]); congruence. Qed.

(** X5: DELETE on an existing id, when the storage layer does not fail,
    answers 200, removes that row and no other (one row less), leaves the
    id sequence as it is, and a GET on the id afterwards answers 404. *)
Theorem delete_removes_the_row k rq rq' w row :
  reachable clock store_cast w →
  rows w !! k = Some row →
  on_query (storage rq) = None →
  on_flush (storage rq) = None → on_commit (storage rq) = None →
  ∃ w', serve (delete_task clock store_cast k rq) w = ((JDeleted, 200), w') ∧
    rows w' = delete k (rows w) ∧ next_id w' = next_id w ∧
    S (size (rows w')) = size (rows w) ∧
    serve (get_task k rq') w' =
      (match on_query (storage rq') with
       | Some m => (JAborted (DBAPIError m), 500)
       | None => (JAborted NotFound, 404)
       end, w').
Proof.
  intros Hw Hk Hq Hf Hc. apply reachable_wf in Hw. destruct Hw as [_ Hkey _].
  destruct (Hkey _ _ Hk) as [Hid _].
  destruct (serve _ w) as [r w'] eqn:H. apply delete_task_outcome in H.
  destruct H as [m Hq'| |row1 e _ _ Hfault|row1 _ Hk1 _ _]; simplify_eq.
  - by destruct (storage_fault_none _ _ _ Hf Hc Hfault).
  - eexists. split; [reflexivity|]. simpl.
    split; [done|]. split; [done|].
    split.
    { rewrite <- (insert_id (rows w) _ _ Hk) at 2. rewrite <- insert_delete_eq.
      by rewrite map_size_insert_None by apply lookup_delete_eq. }
    rewrite get_task_run. simpl. by rewrite lookup_delete_eq.
Qed.

(** X6: ids are never reused: a task created after another one, whatever
    requests were served in between (deletions included), has a larger
    id. *)
Theorem ids_never_reused w rq t w1 calls rq' t' w2 :
  serve (create_task clock store_cast rq) w = ((JTask t, 201), w1) →
  serve (create_task clock store_cast rq')
    (run clock store_cast calls w1) = ((JTask t', 201), w2) →
  d_id t < d_id t'.
Proof.
  intros H H'.
  apply create_created_inv in H as (o & row & _ & _ & [Hid _ _ _ _ _] & -> & ->).
  apply create_created_inv in H' as (o' & row' & _ & _ & [Hid' _ _ _ _ _] & -> & _).
  simpl. rewrite Hid, Hid'.
  match goal with |- _ < next_id (run _ _ _ ?w1) => pose proof (run_next_id clock store_cast calls w1) as Hn end.
  simpl in Hn. lia.
Qed.

End Writes.

Section Updates.

Variable clock : nat → Z.
Variable store_cast : column → pyval → exn + string.

Lemma text_of_of_text o : text_of (of_text o) = o.
Proof. by destruct o. Qed.

Lemma persist_plain_value c v :
  plain_value c v = true → persist store_cast c v = inr (text_of v).
Proof. destruct v; try done. simpl. apply persist_plain. Qed.

Lemma same_text_plain_value c v : plain_value c v = true → same_text v (text_of v) = true.
Proof. destruct v; try done. intros _. apply same_text_title. Qed.

Lemma field_set_entry c e old new :
  plain_entry c e = true →
  field_set store_cast c (attr_of_entry old e) old new → new = updated_value old e.
Proof.
  unfold field_set. destruct e as [v|]; simpl.
  - intros Hv. destruct (same_text v old) eqn:Hs.
    + intros ->. apply same_text_true in Hs as ->. by rewrite text_of_of_text.
    + rewrite persist_plain_value by done. by intros [= ->].
  - intros _. by rewrite same_text_of_text.
Qed.

Lemma same_text_entry e old :
  same_text (attr_of_entry old e) old = true → old = updated_value old e.
Proof.
  destruct e as [v|]; simpl; [|done].
  intros Hs. apply same_text_true in Hs as ->. by rewrite text_of_of_text.
Qed.

Lemma same_text_updated c e old :
  plain_entry c e = true →
  same_text (attr_of_entry (updated_value old e) e) (updated_value old e) = true.
Proof.
  destruct e as [v|]; simpl; [apply same_text_plain_value | intros _; apply same_text_of_text].
Qed.

Lemma assignments_dict_loaded d row :
  assignments (PDict d) (attrs_of row) =
  inr {| a_title := attr_of_entry (Some (title row)) (dict_get "title" d);
         a_description := attr_of_entry (description row) (dict_get "description" d);
         a_status := attr_of_entry (status row) (dict_get "status" d) |}.
Proof. by rewrite assignments_dict. Qed.

Lemma modified_false row o :
  modified row o = false →
  same_text (a_title o) (Some (title row)) = true ∧
  same_text (a_description o) (description row) = true ∧
  same_text (a_status o) (status row) = true.
Proof.
  unfold modified. intros Hm. apply orb_false_elim in Hm as [Hm Hs].
  apply orb_false_elim in Hm as [Ht Hd].
  by apply negb_false_iff in Ht, Hd, Hs.
Qed.

(** What a 200 of PUT with an object body of plain values stores. *)
Lemma update_ok_values k rq w t w' d row :
  reachable clock store_cast w →
  get_json rq = inr (PDict d) → rows w !! k = Some row →
  plain_entry Title (dict_get "title" d) = true →
  plain_entry Description (dict_get "description" d) = true →
  plain_entry Status (dict_get "status" d) = true →
  serve (update_task clock store_cast k rq) w = ((JTask t, 200), w') →
  ∃ row', t = to_dict row' ∧ rows w' !! k = Some row' ∧
    id row' = id row ∧ created_at row' = created_at row ∧
    Some (title row') = updated_value (Some (title row)) (dict_get "title" d) ∧
    description row' = updated_value (description row) (dict_get "description" d) ∧
    status row' = updated_value (status row) (dict_get "status" d).
Proof.
  intros Hw Hj Hk Hpt Hpd Hps H. apply reachable_wf in Hw. destruct Hw as [_ Hkey _].
  destruct (Hkey _ _ Hk) as [Hid _].
  apply update_ok_inv in H as (row1 & o & _ & _ & _ & Hk1 & Ha & Hcase).
  assert (row1 = row) as -> by congruence.
  rewrite Hj in Ha. unfold assigned, on_json in Ha.
  rewrite assignments_dict_loaded in Ha. injection Ha as <-.
  destruct Hcase as [(Hm & -> & ->)|(_ & row' & [Hi Hc _ Hft Hfd Hfs] & -> & ->)].
  - apply modified_false in Hm as (Ht & Hd & Hs). simpl in *.
    exists row. repeat split; try done; by apply same_text_entry.
  - simpl in *. exists row'. split; [done|].
    split; [by rewrite Hid, lookup_insert_eq|].
    repeat split; try done; by eapply field_set_entry.
Qed.

(** X8: a null title is refused by the store, not by the handlers: POST
    with an object whose title is null, and PUT with such an object on an
    existing task, are answered 500 and the stored rows are those from
    before. *)
Theorem null_title_is_a_500 w d fl :
  dict_get "title" d = Some PNone →
  let rq := {| get_json := inr (PDict d); storage := fl |} in
  (∃ e w', serve (create_task clock store_cast rq) w = ((JError e, 500), w') ∧
     rows w' = rows w) ∧
  (∀ k, is_Some (rows w !! k) →
     ∃ e w', serve (update_task clock store_cast k rq) w = ((JError e, 500), w') ∧
       rows w' = rows w).
Proof.
  intros Ht. simpl. split.
  - pose proof (create_rejects_dict d) as Hr. rewrite Ht in Hr.
    pose proof (create_attrs_dict d) as Ha. rewrite Ht in Ha.
    destruct (serve _ w) as [r w'] eqn:H. apply create_task_outcome in H.
    destruct H as [Hr'|e [Hr'|[_ Hr']]|o e w' _ Ho [Hq _] _|o row _ Ho _ _ Hrow _
                  |o row m _ Ho _ _ Hrow _];
      simpl in *; try congruence.
    + by eexists _, _.
    + exfalso. rewrite Ha in Ho. injection Ho as <-.
      destruct Hrow as [_ _ _ Hti _ _]. simpl in Hti. discriminate Hti.
    + exfalso. rewrite Ha in Ho. injection Ho as <-.
      destruct Hrow as [_ _ _ Hti _ _]. simpl in Hti. discriminate Hti.
  - intros k [row Hk].
    destruct (serve _ w) as [r w'] eqn:H. apply update_task_outcome in H.
    destruct H as [m Hq| |row1 e _ Hk1 Ha|row1 o e w' _ Hk1 Ha [Hr _] _
                  |row1 o _ Hk1 Ha Hm _ _|row1 o row' _ Hk1 Ha Hm _ _ Hrow _
                  |row1 o m _ Hk1 Ha Hm _ _|row1 o row' m _ Hk1 Ha Hm _ _ Hrow _];
      unfold assigned in *; simpl in *.
    + by eexists _, _.
    + by eexists _, _.
    + by eexists _, _.
    + by eexists _, _.
    + exfalso. rewrite assignments_dict, Ht in Ha. injection Ha as <-.
      apply modified_false in Hm as (Hm & _). discriminate Hm.
    + exfalso. rewrite assignments_dict, Ht in Ha. injection Ha as <-.
      destruct Hrow as [_ _ _ Hft _ _]. unfold field_set in Hft. simpl in Hft.
      discriminate Hft.
    + exfalso. rewrite assignments_dict, Ht in Ha. injection Ha as <-.
      apply modified_false in Hm as (Hm & _). discriminate Hm.
    + exfalso. rewrite assignments_dict, Ht in Ha. injection Ha as <-.
      destruct Hrow as [_ _ _ Hft _ _]. unfold field_set in Hft. simpl in Hft.
      discriminate Hft.
Qed.

(** X9: a PUT is idempotent on plain values: when a PUT whose object body
    gives null or plain strings for the keys it has is answered 200, the
    same PUT served right after it is answered 200 with the same task and
    changes nothing, [updated_at] included. *)
Theorem update_twice_changes_nothing k rq w t w' d :
  reachable clock store_cast w →
  get_json rq = inr (PDict d) →
  plain_entry Title (dict_get "title" d) = true →
  plain_entry Description (dict_get "description" d) = true →
  plain_entry Status (dict_get "status" d) = true →
  serve (update_task clock store_cast k rq) w = ((JTask t, 200), w') →
  serve (update_task clock store_cast k rq) w' = ((JTask t, 200), w').
Proof.
  intros Hw Hj Hpt Hpd Hps H.
  destruct (update_ok_inv _ _ _ _ _ _ _ H) as (row & o & Hq & Hc & Hr & Hk & _ & _).
  destruct (update_ok_values _ _ _ _ _ _ _ Hw Hj Hk Hpt Hpd Hps H)
    as (row' & -> & Hk' & _ & _ & Ht & Hd & Hs).
  eapply update_unchanged_run; eauto.
  - rewrite Hj. apply assignments_dict_loaded.
  - unfold modified. simpl. rewrite Ht, Hd, Hs.
    by rewrite (same_text_updated Title), (same_text_updated Description),
      (same_text_updated Status).
Qed.

(** X11: after a 200 of PUT, a GET on the id answers 200 with the very
    dict the PUT returned. *)
Theorem update_then_get k rq rq' w t w' :
  reachable clock store_cast w →
  serve (update_task clock store_cast k rq) w = ((JTask t, 200), w') →
  serve (get_task k rq') w' =
    (match on_query (storage rq') with
     | Some m => (JAborted (DBAPIError m), 500)
     | None => (JTask t, 200)
     end, w').
Proof.
  intros Hw H. apply reachable_wf in Hw. destruct Hw as [_ Hkey _].
  apply update_ok_inv in H as (row & o & _ & _ & _ & Hk & _ & Hcase).
  destruct (Hkey _ _ Hk) as [Hid _]. rewrite get_task_run.
  destruct Hcase as [(_ & -> & ->)|(_ & row' & _ & -> & ->)]; simpl.
  - by rewrite Hk.
  - by rewrite Hid, lookup_insert_eq.
Qed.

(** X12: a PUT answered 200 that returns a title, description or status
    different from the stored one has written the row at the time of the
    request: the [updated_at] it returns is the reading of the clock taken
    by the UPDATE. *)
Theorem changing_update_is_stamped k rq w t w' row :
  rows w !! k = Some row →
  serve (update_task clock store_cast k rq) w = ((JTask t, 200), w') →
  d_title t ≠ title row ∨ d_description t ≠ description row ∨ d_status t ≠ status row →
  d_updated_at t = clock (ticks w) ∧ ticks w' = S (ticks w) ∧
  d_created_at t = created_at row.
Proof.
  intros Hk H Hne.
  apply update_ok_inv in H as (row1 & o & _ & _ & _ & Hk1 & _ & Hcase).
  assert (row1 = row) as -> by congruence.
  destruct Hcase as [(_ & -> & ->)|(_ & row' & [_ Hc Hu _ _ _] & -> & ->)]; simpl in *.
  - by destruct Hne as [?|[?|?]].
  - done.
Qed.

(** X13: PUT with an object body on an existing task, whose title when
    given is a string of at most 200 characters without NUL and whose
    description and status when given are null or such strings (status at
    most 50 characters), is answered 200 when the storage layer does not
    fail; the task keeps its id and [created_at], a key that is given
    replaces the column (null for null) and a key that is not given keeps
    it. *)
Theorem update_stores_the_body k rq w d row :
  reachable clock store_cast w →
  get_json rq = inr (PDict d) → rows w !! k = Some row →
  dict_get "title" d ≠ Some PNone →
  plain_entry Title (dict_get "title" d) = true →
  plain_entry Description (dict_get "description" d) = true →
  plain_entry Status (dict_get "status" d) = true →
  on_query (storage rq) = None →
  on_flush (storage rq) = None → on_commit (storage rq) = None →
  on_refresh (storage rq) = None →
  ∃ t w', serve (update_task clock store_cast k rq) w = ((JTask t, 200), w') ∧
    d_id t = k ∧ d_created_at t = created_at row ∧
    Some (d_title t) = updated_value (Some (title row)) (dict_get "title" d) ∧
    d_description t = updated_value (description row) (dict_get "description" d) ∧
    d_status t = updated_value (status row) (dict_get "status" d).
Proof.
  intros Hw Hj Hk Hnn Hpt Hpd Hps Hq Hf Hc Hrf.
  pose proof (reload_fault_none _ Hq Hrf) as Hrl.
  assert (Hwf := reachable_wf _ _ _ Hw). destruct Hwf as [_ Hkey _].
  destruct (Hkey _ _ Hk) as [Hid _].
  destruct (serve _ w) as [r w'] eqn:H.
  assert (Hok : ∃ t, r = (JTask t, 200)).
  { apply update_task_outcome in H.
    destruct H as [m Hq'| |row1 e _ Hk1 Ha|row1 o e w' _ Hk1 Ha _ Hfail
                  |row1 o _ Hk1 Ha Hm _ _|row1 o row' _ Hk1 Ha Hm _ _ Hrow _
                  |row1 o m _ Hk1 Ha Hm _ Hrl'|row1 o row' m _ Hk1 Ha Hm _ _ Hrow Hrl'];
      eauto; try congruence.
    - rewrite Hj in Ha. unfold assigned, on_json in Ha.
      rewrite assignments_dict in Ha. discriminate Ha.
    - exfalso. assert (row1 = row) as -> by congruence.
      rewrite Hj in Ha. unfold assigned, on_json in Ha.
      rewrite assignments_dict_loaded in Ha. injection Ha as <-.
      unfold update_failure in Hfail. simpl in Hfail.
      destruct Hfail as [[Hs Hp]|[[Hs Hp]|[[Hs Hp]|[Hsf|(_ & Hs & Hp)]]]].
      + destruct (dict_get "title" d) as [v|]; simpl in *;
          [by rewrite persist_plain_value in Hp | by rewrite same_text_title in Hs].
      + destruct (dict_get "description" d) as [v|]; simpl in *;
          [by rewrite persist_plain_value in Hp | by rewrite same_text_of_text in Hs].
      + destruct (dict_get "status" d) as [v|]; simpl in *;
          [by rewrite persist_plain_value in Hp | by rewrite same_text_of_text in Hs].
      + by destruct (storage_fault_none _ _ _ Hf Hc Hsf).
      + destruct (dict_get "title" d) as [v|]; simpl in *;
          [|by rewrite same_text_title in Hs].
        rewrite persist_plain_value in Hp by done.
        destruct v; try done. }
  destruct Hok as [t ->].
  destruct (update_ok_values _ _ _ _ _ _ _ Hw Hj Hk Hpt Hpd Hps H)
    as (row' & -> & _ & Hi & Hca & Ht & Hd & Hs).
  eexists _, _. split; [reflexivity|]. simpl. repeat split; congruence.
Qed.

End Updates.

Section Bodies.

Variable clock : nat → Z.
Variable store_cast : column → pyval → exn + string.

(** X10: POST with a body that is not an object never creates a task and
    leaves the world as it is: a falsy body (null, false, 0, "", []) and a
    string or array in which "title" is not found are answered 400; every
    other one is answered 500 with a TypeError (the membership test on a
    number or true, the subscript on a string or array). *)
Theorem create_without_object_body rq data w :
  get_json rq = inr data → (∀ d, data ≠ PDict d) →
  serve (create_task clock store_cast rq) w =
  (if negb (truthy data) || is_sequence data && negb (has_key "title" data)
   then (JTitleRequired, 400)
   else (JError TypeError, 500), w).
Proof.
  intros Hj Hd. unfold serve, create_task, try_except. rewrite create_task_try_run.
  rewrite Hj. unfold on_json, create_rejects, create_attrs, has_key.
  destruct data as [|b|z|m e|s|l|d]; try (by destruct (Hd d));
    unfold py_in, py_getitem, truthy, is_sequence.
  - by destruct w.
  - destruct b; simpl; by destruct w.
  - destruct (z =? 0); simpl; by destruct w.
  - destruct (m =? 0); simpl; by destruct w.
  - destruct (s =? "")%string, (str_contains "title" s); simpl; by destruct w.
  - destruct (existsb (is_str "title") l) eqn:He, l; simpl; try done; by destruct w.
Qed.

(** X14: the status codes of the task routes: POST answers 201, 400 or
    500; PUT and DELETE answer 200 or 500 and nothing else (never 400,
    never 404); GET on one task answers 200, 404 or 500; the list 200 or
    500. *)
Theorem status_codes_of_the_routes k rq w :
  (let s := status_code (serve (create_task clock store_cast rq) w).1 in
   s = 201 ∨ s = 400 ∨ s = 500) ∧
  (let s := status_code (serve (update_task clock store_cast k rq) w).1 in
   s = 200 ∨ s = 500) ∧
  (let s := status_code (serve (delete_task clock store_cast k rq) w).1 in
   s = 200 ∨ s = 500) ∧
  (let s := status_code (serve (get_task k rq) w).1 in
   s = 200 ∨ s = 404 ∨ s = 500) ∧
  (let s := status_code (serve (get_tasks rq) w).1 in s = 200 ∨ s = 500).
Proof.
  repeat split; simpl.
  - destruct (serve (create_task _ _ rq) w) as [r w'] eqn:H.
    apply create_task_outcome in H. destruct H; simpl; auto.
  - destruct (serve (update_task _ _ k rq) w) as [r w'] eqn:H.
    apply update_task_outcome in H. destruct H; simpl; auto.
  - destruct (serve (delete_task _ _ k rq) w) as [r w'] eqn:H.
    apply delete_task_outcome in H. destruct H; simpl; auto.
  - rewrite get_task_run. simpl.
    destruct (on_query (storage rq)); [auto|]. destruct (rows w !! k); auto.
  - rewrite get_tasks_run. simpl. destruct (on_query (storage rq)); auto.
Qed.

(** X15: when the SELECT of the request fails, PUT, DELETE and the list
    answer 500 with the description of the storage error in a JSON body,
    whatever the id and the body; GET on one task, which has no [try],
    ends in the application's own 500. Nothing is changed. *)
Theorem failing_query_is_reported k rq w m :
  on_query (storage rq) = Some m →
  serve (update_task clock store_cast k rq) w = ((JError (DBAPIError m), 500), w) ∧
  serve (delete_task clock store_cast k rq) w = ((JError (DBAPIError m), 500), w) ∧
  serve (get_tasks rq) w = ((JError (DBAPIError m), 500), w) ∧
  serve (get_task k rq) w = ((JAborted (DBAPIError m), 500), w).
Proof.
  intros Hq. repeat split.
  - destruct (serve _ w) as [r w'] eqn:H. apply update_task_outcome in H.
    destruct H; one_outcome; done.
  - destruct (serve _ w) as [r w'] eqn:H. apply delete_task_outcome in H.
    destruct H; one_outcome; done.
  - by rewrite get_tasks_run, Hq.
  - by rewrite get_task_run, Hq.
Qed.

(** X16: an exception raised in the [try] block of create, update or
    delete never leaves the handler: the answer is 500 with the
    description of the error, after a rollback that empties the session
    and puts the transaction back on the committed rows. Those are the
    rows from before the request, unless the exception is the storage
    error of the reload that follows a COMMIT that went through, which
    delete does not have. *)
Theorem exception_in_try_is_a_500 v w e c1 :
  try_block clock store_cast v (begin w) = (inl e, c1) →
  handler clock store_cast v (begin w)
    = (inr (JError e, 500), {| db := db c1; txn := rows (db c1); session := None |}) ∧
  (rows (db c1) = rows w ∨
   ∃ m, e = DBAPIError m ∧ reload_fault (storage (request_of v)) = Some m ∧
     on_flush (storage (request_of v)) = None ∧
     on_commit (storage (request_of v)) = None ∧
     ∀ k rq, v ≠ Delete k rq).
Proof.
  intros H.
  assert (Hh : handler clock store_cast v (begin w)
               = (inr (JError e, 500),
                  {| db := db c1; txn := rows (db c1); session := None |})).
  { rewrite handler_try_except. unfold try_except. by rewrite H. }
  split; [done|].
  apply (handler_error_rows clock store_cast v w e). unfold serve. by rewrite Hh.
Qed.

End Bodies.

(** ** The further properties on particular requests *)

(** X2 on the world with one task. *)
Lemma get_tasks_lists_the_rows_witness :
  ∃ r, serve (get_tasks (json_request PNone)) one_task = (r, one_task) ∧
    ∃ l, r = (JTasks l, 200) ∧
      length l = size (rows one_task) ∧
      NoDup (d_id <$> l) ∧
      ∀ d, d ∈ l ↔ ∃ row, rows one_task !! d_id d = Some row ∧ d = to_dict row.
Proof.
  apply (get_tasks_lists_the_rows sec_clock strict_cast (json_request PNone) one_task
           one_task_reachable).
Defined.

(** X3 on the second task. *)
Lemma create_then_get_witness :
  rows one_task !! 2 = None ∧
  size (rows two_tasks) = S (size (rows one_task)) ∧
  serve (get_task 2 (json_request PNone)) two_tasks = ((JTask task_2_dict, 200), two_tasks).
Proof.
  destruct (create_then_get sec_clock strict_cast (json_request title_A)
              (json_request PNone) one_task task_2_dict two_tasks
              one_task_reachable eq_refl) as (Hn & Hs & _ & Hg).
  done.
Defined.

(** X4 on a body with a title and a null status. *)
Lemma create_stores_the_body_witness :
  ∃ t w',
    serve (create_task sec_clock strict_cast (json_request title_B_null_status)) one_task
    = ((JTask t, 201), w') ∧
    d_id t = 2 ∧ d_title t = "B" ∧
    d_description t = Some "" ∧ d_status t = Some "pending".
Proof.
  apply (create_stores_the_body sec_clock strict_cast one_task
           (json_request title_B_null_status)
           [("title", PStr "B"); ("status", PNone)] "B"); reflexivity.
Defined.

(** X5 on the deletion of task 1. *)
Lemma delete_removes_the_row_witness :
  ∃ w', serve (delete_task sec_clock strict_cast 1 (json_request PNone)) one_task
        = ((JDeleted, 200), w') ∧
    rows w' = delete 1 (rows one_task) ∧ next_id w' = next_id one_task ∧
    S (size (rows w')) = size (rows one_task) ∧
    serve (get_task 1 (json_request PNone)) w' = ((JAborted NotFound, 404), w').
Proof.
  apply (delete_removes_the_row sec_clock strict_cast 1 (json_request PNone)
           (json_request PNone) one_task task_1 one_task_reachable one_task_lookup);
    reflexivity.
Defined.

(** X6: task 1 is created and deleted, the next task gets id 2. *)
Lemma ids_never_reused_witness : d_id (to_dict task_1) < d_id task_2_dict.
Proof.
  apply (ids_never_reused sec_clock strict_cast initial (json_request title_A)
           (to_dict task_1) one_task [(DELETE_task 1, json_request PNone)]
           (json_request title_A) task_2_dict
           (serve (create_task sec_clock strict_cast (json_request title_A))
              (run sec_clock strict_cast [(DELETE_task 1, json_request PNone)]
                 one_task)).2);
    vm_compute; reflexivity.
Defined.

(** X7 on the health probe. *)
Lemma reads_keep_the_rows_witness :
  rows (step sec_clock strict_cast one_task (GET_health, json_request PNone))
  = rows one_task ∧
  next_id (step sec_clock strict_cast one_task (GET_health, json_request PNone))
  = next_id one_task.
Proof.
  apply (reads_keep_the_rows sec_clock strict_cast GET_health (json_request PNone)
           one_task); reflexivity.
Defined.

(** X8 on the body [{"title": null}]. *)
Lemma null_title_is_a_500_witness :
  ∃ e w',
    serve (create_task sec_clock strict_cast
             {| get_json := inr (PDict null_title); storage := no_faults |}) one_task
    = ((JError e, 500), w') ∧
    rows w' = rows one_task.
Proof.
  apply (null_title_is_a_500 sec_clock strict_cast one_task null_title no_faults).
  reflexivity.
Defined.

(** X9 on the PUT that sets the status of task 1. *)
Lemma update_twice_changes_nothing_witness :
  serve (update_task sec_clock strict_cast 1 (json_request status_done)) after_update
  = ((JTask (to_dict task_1_done), 200), after_update).
Proof.
  apply (update_twice_changes_nothing sec_clock strict_cast 1
           (json_request status_done) one_task (to_dict task_1_done) after_update
           [("status", PStr "done")] one_task_reachable); reflexivity.
Defined.

(** X10 on the body ["title"] given as a string. *)
Lemma create_without_object_body_witness :
  serve (create_task sec_clock strict_cast (json_request (PStr "title"))) one_task
  = ((JError TypeError, 500), one_task).
Proof.
  apply (create_without_object_body sec_clock strict_cast
           (json_request (PStr "title")) (PStr "title") one_task);
    [reflexivity | discriminate].
Defined.

(** X11 on the PUT that sets the status of task 1. *)
Lemma update_then_get_witness :
  serve (get_task 1 (json_request PNone)) after_update
  = ((JTask (to_dict task_1_done), 200), after_update).
Proof.
  apply (update_then_get sec_clock strict_cast 1 (json_request status_done)
           (json_request PNone) one_task (to_dict task_1_done) after_update
           one_task_reachable); reflexivity.
Defined.

(** X12 on the PUT that sets the status of task 1 at second 2. *)
Lemma changing_update_is_stamped_witness :
  d_updated_at (to_dict task_1_done) = sec_clock (ticks one_task) ∧
  ticks after_update = S (ticks one_task) ∧
  d_created_at (to_dict task_1_done) = created_at task_1.
Proof.
  apply (changing_update_is_stamped sec_clock strict_cast 1 (json_request status_done)
           one_task (to_dict task_1_done) after_update task_1 one_task_lookup);
    [reflexivity|]. right. right. discriminate.
Defined.

(** X13 on the PUT that sets the status of task 1. *)
Lemma update_stores_the_body_witness :
  ∃ t w',
    serve (update_task sec_clock strict_cast 1 (json_request status_done)) one_task
    = ((JTask t, 200), w') ∧
    d_id t = 1 ∧ d_created_at t = created_at task_1 ∧
    Some (d_title t) = Some "A" ∧
    d_description t = Some "" ∧ d_status t = Some "done".
Proof.
  apply (update_stores_the_body sec_clock strict_cast 1 (json_request status_done)
           one_task [("status", PStr "done")] task_1 one_task_reachable);
    first [apply one_task_lookup | reflexivity | discriminate].
Defined.

(** X16 on a PUT whose COMMIT fails: the status change is not stored. *)
Lemma exception_in_try_is_a_500_witness :
  handler sec_clock strict_cast
    (Update 1 {| get_json := inr status_done; storage := commit_fails |})
    (begin one_task)
  = (inr (JError (DBAPIError "connection lost"), 500),
     {| db := tick one_task; txn := rows one_task; session := None |}).
Proof.
  apply (exception_in_try_is_a_500 sec_clock strict_cast
           (Update 1 {| get_json := inr status_done; storage := commit_fails |})
           one_task (DBAPIError "connection lost")
           {| db := tick one_task;
              txn := <[1 := task_1_done]> (rows one_task);
              session := Some (Persistent task_1_done (attrs_of task_1_done)) |}).
  vm_compute. reflexivity.
Defined.

(** X15 on a lost connection. *)
Lemma failing_query_is_reported_witness :
  serve (update_task sec_clock strict_cast 1
           {| get_json := inr status_done; storage := query_fails |}) one_task
  = ((JError (DBAPIError "connection lost"), 500), one_task).
Proof.
  apply (failing_query_is_reported sec_clock strict_cast 1
           {| get_json := inr status_done; storage := query_fails |} one_task
           "connection lost").
  reflexivity.
Defined.
